(** * izawa-mcp-server: the /mcp dispatcher and the discovery document

    A shallow embedding of [src/server.ts].  The Express handlers are
    written in a small state-and-exception monad over the response object
    [res]; the data-access helpers run in the exception monad over a
    read-only file store.  The theorems at the end relate the handlers to
    the statements of the specification. *)

From Stdlib Require Import String Ascii ZArith List Bool Lia.
From stdpp Require Import base strings gmap pretty.
Import ListNotations.

Set Warnings "-register-all".
Local Open Scope string_scope.
Local Open Scope Z_scope.

(** ** JavaScript strings *)

Module Js.

Definition LF : string := String (ascii_of_nat 10) EmptyString.

(** [String.prototype.includes]: [needle] occurs somewhere in [hay]. *)
Fixpoint includes (hay needle : string) : bool :=
  String.prefix needle hay ||
  match hay with
  | EmptyString => false
  | String _ rest => includes rest needle
  end.

(** [String.prototype.startsWith]. *)
Definition startsWith (s pre : string) : bool := String.prefix pre s.

(** [Array.prototype.join]. *)
Fixpoint join (sep : string) (parts : list string) : string :=
  match parts with
  | [] => ""
  | [p] => p
  | p :: rest => p ++ sep ++ join sep rest
  end.

(** [a || b] on strings: the empty string is falsy. *)
Definition or_else (a : option string) (b : string) : string :=
  match a with
  | Some (String c s) => String c s
  | _ => b
  end.

End Js.

(** ** Exceptions *)

Inductive ErrnoException := ENOENT | EACCES | EISDIR | EIO.

Inductive JsError :=
| TypeError (msg : string)
| SyntaxError
| ERR_HTTP_HEADERS_SENT
| FsError (e : ErrnoException).

Inductive Completion (A : Type) :=
| Normal (a : A)
| Throw (e : JsError).
Arguments Normal {A} a.
Arguments Throw {A} e.

Definition cbind {A B} (m : Completion A) (k : A -> Completion B) : Completion B :=
  match m with
  | Normal a => k a
  | Throw e => Throw e
  end.

(** [try { body } catch (error) { handler }] *)
Definition ctry {A} (body : Completion A) (handler : JsError -> Completion A) : Completion A :=
  match body with
  | Normal a => Normal a
  | Throw e => handler e
  end.

(** ** JSON values

    IEEE-754 doubles are kept abstract: the handlers only test a number
    for truthiness and print it. *)

Class JsNumber := {
  number : Type;
  (** ToBoolean is false on +0, -0 and NaN *)
  number_falsy : number -> bool;
  (** Number::toString, as used by template literals *)
  number_toString : number -> string;
  (** the text JSON.stringify prints (null for the non-finite ones) *)
  number_toJSON : number -> string
}.

Section Values.
Context `{JsNumber}.

Inductive Json :=
| JNull
| JBool (b : bool)
| JNumber (n : number)
| JString (s : string)
| JArray (items : list Json)
| JObject (fields : list (string * Json)).

(** A JavaScript value that came out of a JSON document, or [undefined]
    ([None]) when a property is not there. *)
Definition JsValue := option Json.
Definition undefined : JsValue := None.

(** Own-property lookup [o.key]; the first binding of a key is the
    property.  Primitives and arrays have no such named property. *)
Fixpoint assoc (key : string) (fields : list (string * Json)) : JsValue :=
  match fields with
  | [] => undefined
  | (k, v) :: rest => if String.eqb k key then Some v else assoc key rest
  end.

Definition get_prop (o : Json) (key : string) : JsValue :=
  match o with
  | JObject fields => assoc key fields
  | _ => undefined
  end.

Definition has_own (key : string) (fields : list (string * Json)) : bool :=
  existsb (fun kv => String.eqb (fst kv) key) fields.

(** ToBoolean, the test behind [!x], [if (x)] and [a || b]. *)
Definition truthy (v : JsValue) : bool :=
  match v with
  | None => false
  | Some JNull => false
  | Some (JBool b) => b
  | Some (JNumber n) => negb (number_falsy n)
  | Some (JString s) => negb (String.eqb s "")
  | Some (JArray _) => true
  | Some (JObject _) => true
  end.

Fixpoint sequence (l : list (Completion string)) : Completion (list string) :=
  match l with
  | [] => Normal []
  | c :: rest =>
      cbind c (fun s => cbind (sequence rest) (fun ss => Normal (s :: ss)))
  end.

(** ToString, the conversion a template literal applies to [${v}].  An
    array prints its elements joined by commas (null prints as nothing);
    an object prints as [[object Object]] through the inherited
    [toString], and when a data property named [toString] shadows it no
    primitive can be produced and a TypeError is thrown. *)
Fixpoint ToString (v : Json) : Completion string :=
  match v with
  | JNull => Normal "null"
  | JBool true => Normal "true"
  | JBool false => Normal "false"
  | JNumber n => Normal (number_toString n)
  | JString s => Normal s
  | JArray items =>
      cbind (sequence (map (fun e => match e with
                                     | JNull => Normal ""
                                     | _ => ToString e
                                     end) items))
            (fun parts => Normal (Js.join "," parts))
  | JObject fields =>
      if has_own "toString" fields
      then Throw (TypeError "Cannot convert object to primitive value")
      else Normal "[object Object]"
  end.

Definition template (v : JsValue) : Completion string :=
  match v with
  | None => Normal "undefined"
  | Some j => ToString j
  end.

(** *** JSON.stringify *)

Definition hex_digit (n : N) : ascii :=
  match n with
  | 0%N => "0" | 1%N => "1" | 2%N => "2" | 3%N => "3" | 4%N => "4"
  | 5%N => "5" | 6%N => "6" | 7%N => "7" | 8%N => "8" | 9%N => "9"
  | 10%N => "a" | 11%N => "b" | 12%N => "c" | 13%N => "d" | 14%N => "e"
  | _ => "f"
  end%char.

Definition escape_char (c : ascii) : string :=
  let n := N_of_ascii c in
  if (n =? 34)%N then "\" ++ String c ""
  else if (n =? 92)%N then "\\"
  else if (n =? 8)%N then "\b"
  else if (n =? 9)%N then "\t"
  else if (n =? 10)%N then "\n"
  else if (n =? 12)%N then "\f"
  else if (n =? 13)%N then "\r"
  else if (n <? 32)%N
       then "\u00" ++ String (hex_digit (n / 16)) (String (hex_digit (n mod 16)) "")
  else String c "".

Fixpoint escape (s : string) : string :=
  match s with
  | EmptyString => ""
  | String c rest => escape_char c ++ escape rest
  end.

Definition dquote : string := String (ascii_of_nat 34) "".

(** QuoteJSONString *)
Definition quote (s : string) : string := dquote ++ escape s ++ dquote.

Fixpoint JSON_stringify (v : Json) : string :=
  match v with
  | JNull => "null"
  | JBool true => "true"
  | JBool false => "false"
  | JNumber n => number_toJSON n
  | JString s => quote s
  | JArray items => "[" ++ Js.join "," (map JSON_stringify items) ++ "]"
  | JObject fields =>
      "{" ++ Js.join "," (map (fun kv => quote (fst kv) ++ ":" ++ JSON_stringify (snd kv))
                              fields) ++ "}"
  end.

End Values.

(** ** The environment of the process and the request *)

(** [JSON.parse]; [None] stands for the SyntaxError it throws. *)
Class JsonParser `{JsNumber} := JSON_parse : string -> option Json.

Section Server.
Context `{JsonParser}.

(** [readFile segs] is [fs.readFile(path.join(__dirname, ...segs), 'utf-8')]:
    the text of the file, or the error the promise is rejected with.
    [env_PORT] is [process.env.PORT]. *)
Record Env := {
  readFile : list string -> ErrnoException + string;
  env_PORT : option string
}.

(** [const port = process.env.PORT || 3000], as it prints in a template. *)
Definition port (env : Env) : string := Js.or_else (env_PORT env) "3000".

(** What the handlers read from [req].  [body] is what [express.json()]
    left in [req.body]: the parsed object (or array) of the request.

    A [Request] is a request that reached its route.  [express.json()]
    (line 9) comes before everything else: a body it cannot parse is
    answered by Express itself, before the CORS middleware, and reaches
    none of the code below.  The conditional headers of a GET
    (If-None-Match, If-Modified-Since), which [res.send] may answer with
    304, are taken to be absent. *)
Record Request := {
  accept : option string;
  host : option string;
  protocol : string;
  body : Json
}.

(** ** The response object

    [statusCode] and [headers] are the pending status and header fields.
    [wire] is the status line and header block once they have been sent;
    from then on they cannot change.  [chunks] are the pieces of body
    written so far, and [writableEnded] is set by [end]. *)
Record Response := {
  statusCode : Z;
  headers : gmap string string;
  wire : option (Z * gmap string string);
  chunks : list string;
  writableEnded : bool
}.

(** [res] as the first middleware finds it (the [X-Powered-By] field of
    Express is left out). *)
Definition fresh_response : Response :=
  {| statusCode := 200; headers := ∅; wire := None; chunks := []; writableEnded := false |}.

Definition headersSent (r : Response) : bool :=
  match wire r with Some _ => true | None => false end.

(** The status the client sees. *)
Definition http_status (r : Response) : Z :=
  match wire r with
  | Some (code, _) => code
  | None => statusCode r
  end.

(** The header the client sees. *)
Definition http_header (r : Response) (name : string) : option string :=
  match wire r with
  | Some (_, h) => h !! name
  | None => headers r !! name
  end.

(** Computations on [res] that may throw; what was done to [res] before
    a throw stays done. *)
Definition Eff (A : Type) : Type := Response -> Completion A * Response.

Definition ret {A} (a : A) : Eff A := fun r => (Normal a, r).

Definition bind {A B} (m : Eff A) (k : A -> Eff B) : Eff B :=
  fun r =>
    match m r with
    | (Normal a, r') => k a r'
    | (Throw e, r') => (Throw e, r')
    end.

Definition lift {A} (c : Completion A) : Eff A := fun r => (c, r).

Definition try_catch {A} (body : Eff A) (handler : JsError -> Eff A) : Eff A :=
  fun r =>
    match body r with
    | (Normal a, r') => (Normal a, r')
    | (Throw e, r') => handler e r'
    end.

Definition exec {A} (m : Eff A) (r : Response) : Response := snd (m r).

End Server.

Declare Scope eff_scope.
Delimit Scope eff_scope with eff.
Notation "x <- m ;; k" := (bind m (fun x => k))
  (at level 100, m at next level, right associativity) : eff_scope.
Notation "m ;; k" := (bind m (fun _ => k))
  (at level 100, right associativity) : eff_scope.

Section Express.
Context `{JsonParser}.
Local Open Scope eff_scope.

(** *** The methods of [res] the handlers call

    [res] is Node's [http.ServerResponse] with the methods Express adds.
    Its head (status line and header fields) is sent at most once: by
    [flushHeaders], or by the first [write] or [end].  After that
    [statusCode] can still be assigned but is no longer looked at, and
    [setHeader] throws ERR_HTTP_HEADERS_SENT. *)

(** [res.setHeader]: throws once the header block is out. *)
Definition res_setHeader (name value : string) : Eff unit :=
  fun r =>
    if headersSent r then (Throw ERR_HTTP_HEADERS_SENT, r)
    else (Normal tt,
          {| statusCode := statusCode r; headers := <[name := value]> (headers r);
             wire := wire r; chunks := chunks r; writableEnded := writableEnded r |}).

Definition res_getHeader (name : string) : Eff (option string) :=
  fun r => (Normal (headers r !! name), r).

(** Sends the status line and the header block if not sent yet. *)
Definition send_head (r : Response) : Response :=
  match wire r with
  | Some _ => r
  | None =>
      {| statusCode := statusCode r; headers := headers r;
         wire := Some (statusCode r, headers r);
         chunks := chunks r; writableEnded := writableEnded r |}
  end.

(** [res.flushHeaders] *)
Definition res_flushHeaders : Eff unit := fun r => (Normal tt, send_head r).

(** [res.status(code)] assigns [res.statusCode]; it sends nothing. *)
Definition res_status (code : Z) : Eff unit :=
  fun r =>
    (Normal tt,
     {| statusCode := code; headers := headers r; wire := wire r;
        chunks := chunks r; writableEnded := writableEnded r |}).

(** [res.write(chunk)]: sends the head first when needed; nothing is
    written to a response that has ended. *)
Definition res_write (chunk : string) : Eff unit :=
  fun r =>
    if writableEnded r then (Normal tt, r)
    else
      let r' := send_head r in
      (Normal tt,
       {| statusCode := statusCode r'; headers := headers r'; wire := wire r';
          chunks := chunks r' ++ [chunk]; writableEnded := false |}).

(** [res.end()] *)
Definition res_end : Eff unit :=
  fun r =>
    let r' := send_head r in
    (Normal tt,
     {| statusCode := statusCode r'; headers := headers r'; wire := wire r';
        chunks := chunks r'; writableEnded := true |}).

(** The charset parameter [res.send] puts on the content type of a string
    body. *)
Definition with_charset (type : string) : string :=
  if Js.includes type "charset=" then type else type ++ "; charset=utf-8".

(** [res.json(obj)]: serialises [obj], defaults the content type to
    [application/json], and hands the text to [res.send], which sets the
    content type again with its charset and then ends the response with
    the text as its body.  Both assignments go through [res.setHeader].
    (The [Content-Length] and [ETag] fields it adds are left out.) *)
Definition res_json (obj : Json) : Eff unit :=
  let text := JSON_stringify obj in
  type <- res_getHeader "Content-Type" ;;
  match type with
  | Some _ => ret tt
  | None => res_setHeader "Content-Type" "application/json"
  end ;;
  type <- res_getHeader "Content-Type" ;;
  res_setHeader "Content-Type" (with_charset (default "text/html" type)) ;;
  res_write text ;;
  res_end.

(** [res.send(text)] for a string: the content type defaults to
    [text/html], is set again with its charset, and the response ends
    with the text as its body. *)
Definition res_send (text : string) : Eff unit :=
  type <- res_getHeader "Content-Type" ;;
  match type with
  | Some _ => ret tt
  | None => res_setHeader "Content-Type" "text/html"
  end ;;
  type <- res_getHeader "Content-Type" ;;
  res_setHeader "Content-Type" (with_charset (default "text/html" type)) ;;
  res_write text ;;
  res_end.

End Express.

Declare Scope comp_scope.
Delimit Scope comp_scope with comp.
Notation "x <- m ;; k" := (cbind m (fun x => k))
  (at level 100, m at next level, right associativity) : comp_scope.

(** ** server.ts *)

Section App.
Context `{JsonParser}.
Variable env : Env.

(** *** Data-access helpers *)

Definition fs_readFile (segs : list string) : Completion string :=
  match readFile env segs with
  | inr data => Normal data
  | inl e => Throw (FsError e)
  end.

Definition parse (data : string) : Completion Json :=
  match JSON_parse data with
  | Some v => Normal v
  | None => Throw SyntaxError
  end.

Definition default_profile : Json :=
  JObject [("name", JString "泉澤 直樹");
           ("bio", JString "TypeScript と MCP に興味があるエンジニアです。");
           ("website", JString "https://example.com")].

Definition default_posts : Json :=
  JArray [JObject [("id", JString "post-1");
                   ("title", JString "MCPサーバー構築記");
                   ("date", JString "2023-04-09");
                   ("summary", JString "TypeScriptでMCPサーバーを作った話...")];
          JObject [("id", JString "post-2");
                   ("title", JString "TypeScriptの便利な機能");
                   ("date", JString "2023-04-01");
                   ("summary", JString "型安全な開発...")]].

Definition getUserProfile : Completion Json :=
  ctry (data <- fs_readFile ["data"; "profile.json"] ;;
        parse data)%comp
       (fun error => Normal default_profile).

Definition getBlogPosts : Completion Json :=
  ctry (data <- fs_readFile ["data"; "posts"; "index.json"] ;;
        parse data)%comp
       (fun error => Normal default_posts).

(** Returns the text of the post as a string, or [null]. *)
Definition getBlogPostContent (postId : JsValue) : Completion Json :=
  ctry (id <- template postId ;;
        data <- fs_readFile ["data"; "posts"; id ++ ".md"] ;;
        Normal (JString data))%comp
       (fun error =>
          (id <- template postId ;;   (* the message given to console.error *)
           Normal JNull)%comp).

(** *** Transport negotiation *)

Local Open Scope eff_scope.

(** Lines 12-24: the CORS middleware in front of every route. *)
Definition corsMiddleware (method : string) (next : Eff unit) : Eff unit :=
  res_setHeader "Access-Control-Allow-Origin" "*" ;;
  res_setHeader "Access-Control-Allow-Headers" "Origin, X-Requested-With, Content-Type, Accept" ;;
  res_setHeader "Access-Control-Allow-Methods" "GET, POST, OPTIONS" ;;
  if String.eqb method "OPTIONS" then
    res_status 200 ;; res_end
  else next.

Definition isSse (req : Request) : bool :=
  Js.includes (Js.or_else (accept req) "") "text/event-stream".

Definition setupSSE (req : Request) : Eff bool :=
  let isSseRequest := isSse req in
  (if isSseRequest then
     res_setHeader "Content-Type" "text/event-stream" ;;
     res_setHeader "Cache-Control" "no-cache" ;;
     res_setHeader "Connection" "keep-alive" ;;
     res_setHeader "X-Accel-Buffering" "no" ;;
     res_flushHeaders
   else ret tt) ;;
  ret isSseRequest.

(** The text of one [data: <json>\n\n] frame. *)
Definition sse_frame (data : Json) : string :=
  "data: " ++ JSON_stringify data ++ Js.LF ++ Js.LF.

(** *** The discovery document *)

Definition effective_host (req : Request) : string :=
  Js.or_else (host req) ("localhost:" ++ port env).

Definition scheme (req : Request) : string :=
  if String.eqb (protocol req) "http" && Js.startsWith (effective_host req) "localhost"
  then "http" else "https".

Definition rootUrl (req : Request) : string :=
  scheme req ++ "://" ++ effective_host req.

Definition contexts : Json :=
  JArray [
    JObject [("id", JString "profile");
             ("name", JString "プロフィール情報");
             ("description", JString "運営者の基本的なプロフィール");
             ("mcp_endpoint", JString "/mcp")];
    JObject [("id", JString "blog_posts_list");
             ("name", JString "ブログ記事リスト");
             ("description", JString "投稿されたブログ記事のタイトルと概要");
             ("mcp_endpoint", JString "/mcp")];
    JObject [("id", JString "blog_post_content");
             ("name", JString "ブログ記事本文");
             ("description", JString "指定されたIDのブログ記事の本文（Markdown形式）");
             ("mcp_endpoint", JString "/mcp");
             ("params_schema",
              JObject [("type", JString "object");
                       ("properties",
                        JObject [("post_id",
                                  JObject [("type", JString "string");
                                           ("description", JString "取得したいブログ記事のID")])]);
                       ("required", JArray [JString "post_id"])])]].

Definition getMcpMetadata (req : Request) : Json :=
  JObject [("name", JString "Izawa MCP Server");
           ("description", JString "プロフィールとブログ記事を提供します。");
           ("root_url", JString (rootUrl req));
           ("icon_url", JString (rootUrl req ++ "/icon.png"));
           ("contexts", contexts)].

(** [app.get('/.well-known/model-context-protocol.json', ...)] *)
Definition get_metadata (req : Request) : Eff unit :=
  isSseRequest <- setupSSE req ;;
  let data := getMcpMetadata req in
  if isSseRequest then
    res_write (sse_frame data) ;; res_end
  else res_json data.

(** *** The /mcp endpoint *)

Definition error_payload (msg : string) : Json := JObject [("error", JString msg)].

Definition responseData (content : Json) (format : string) : Json :=
  JObject [("context", JObject [("content", content); ("format", JString format)])].

(** [console.log] / [console.warn] / [console.error]: the message is
    built (which may throw), the output stream is not modelled. *)
Definition console (message : Completion string) : Eff unit :=
  _ <- lift message ;; ret tt.

(** [context_id === name] *)
Definition strict_eq (v : JsValue) (name : string) : bool :=
  match v with
  | Some (JString s) => String.eqb s name
  | _ => false
  end.

(** [params.post_id], read once [params] is known to be truthy. *)
Definition post_id_of (params : JsValue) : JsValue :=
  match params with
  | Some o => get_prop o "post_id"
  | None => undefined
  end.

(** The switch statement (lines 181-227).  [Some (content, format)] when a
    case ends in [break]; [None] when it has answered and the handler
    returns. *)
Definition dispatch (context_id params : JsValue) : Eff (option (Json * string)) :=
  if strict_eq context_id "profile" then
    userProfile <- lift getUserProfile ;;
    ret (Some (JString (JSON_stringify userProfile), "application/json"))
  else if strict_eq context_id "blog_posts_list" then
    posts <- lift getBlogPosts ;;
    ret (Some (JString (JSON_stringify posts), "application/json"))
  else if strict_eq context_id "blog_post_content" then
    if negb (truthy params) || negb (truthy (post_id_of params)) then
      res_status 400 ;;
      res_json (error_payload
                  "Missing required parameter 'post_id' for context 'blog_post_content'") ;;
      ret None
    else
      let postId := post_id_of params in
      content <- lift (getBlogPostContent postId) ;;
      if truthy (Some content) then
        ret (Some (content, "text/markdown"))
      else
        console (id <- template postId ;;
                 Normal ("[MCP Warning] Blog post not found for id: " ++ id))%comp ;;
        id <- lift (template postId) ;;
        res_status 404 ;;
        res_json (error_payload ("Blog post with id '" ++ id ++ "' not found")) ;;
        ret None
  else
    console (id <- template context_id ;;
             Normal ("[MCP Warning] Unknown context_id requested: " ++ id))%comp ;;
    id <- lift (template context_id) ;;
    res_status 404 ;;
    res_json (error_payload ("Context with id '" ++ id ++ "' not found")) ;;
    ret None.

(** [JSON.stringify(params)] inside a template: [undefined] prints as
    such. *)
Definition stringify_value (v : JsValue) : string :=
  match v with
  | Some j => JSON_stringify j
  | None => "undefined"
  end.

(** [app.route('/mcp').post(...)], lines 161-254: the statements of the
    [try] block, those of the [catch] block, and the handler. *)
Definition try_block (isSseRequest : bool) (context_id params : JsValue) : Eff unit :=
  if negb (truthy context_id) then
    if isSseRequest then
      res_write (sse_frame (error_payload "context_id is required")) ;;
      res_end
    else
      res_status 400 ;;
      res_json (error_payload "context_id is required")
  else
    console (id <- template context_id ;;
             Normal ("[MCP Request] context_id: " ++ id ++ ", params: "
                     ++ stringify_value params))%comp ;;
    resolved <- dispatch context_id params ;;
    match resolved with
    | None => ret tt
    | Some (content, format) =>
        if isSseRequest then
          console (id <- template context_id ;;
                   Normal ("[MCP Response] Sending SSE response for " ++ id))%comp ;;
          res_write (sse_frame (responseData content format)) ;;
          res_end
        else
          res_json (responseData content format)
    end.

Definition catch_block (isSseRequest : bool) (error : JsError) : Eff unit :=
  if isSseRequest then
    res_write (sse_frame (error_payload "Internal server error")) ;;
    res_end
  else
    res_status 500 ;;
    res_json (error_payload "Internal server error").

Definition post_mcp (req : Request) : Eff unit :=
  let context_id := get_prop (body req) "context_id" in
  let params := get_prop (body req) "params" in
  isSseRequest <- setupSSE req ;;
  try_catch (try_block isSseRequest context_id params) (catch_block isSseRequest).

(** A request as the application serves it: the CORS middleware, then
    the route ([express.static] serves neither path and passes on). *)
Definition serve_metadata (req : Request) : Response :=
  exec (corsMiddleware "GET" (get_metadata req)) fresh_response.

Definition serve_mcp (req : Request) : Response :=
  exec (corsMiddleware "POST" (post_mcp req)) fresh_response.

Definition serve_preflight : Response :=
  exec (corsMiddleware "OPTIONS" (ret tt)) fresh_response.

(** The body the client receives. *)
Definition http_body (r : Response) : string := Js.join "" (chunks r).

(** [app.route('/mcp').options(...)], lines 158-160. *)
Definition options_mcp : Eff unit := res_status 200 ;; res_end.

(** [app.get('/', ...)], lines 257-259. *)
Definition get_root : Eff unit := res_send "Izawa MCP Server is running!".

Definition serve_options_mcp : Response :=
  exec (corsMiddleware "OPTIONS" options_mcp) fresh_response.

Definition serve_root : Response :=
  exec (corsMiddleware "GET" get_root) fresh_response.

(** The message of [app.listen], lines 262-264. *)
Definition listening : string := "Server listening at http://localhost:" ++ port env.

End App.

(** ** A concrete runtime for the examples

    Numbers are integers printed in decimal, the parser knows the two
    empty documents, and the store holds a profile, one post, one empty
    post and one unreadable post. *)

Module Sample.

Definition ZNumber : JsNumber :=
  {| number := Z; number_falsy := Z.eqb 0; number_toString := pretty; number_toJSON := pretty |}.
#[local] Existing Instance ZNumber.

Definition parser : JsonParser :=
  fun data =>
    if String.eqb data "{}" then Some (JObject [])
    else if String.eqb data "[]" then Some (JArray [])
    else None.
#[local] Existing Instance parser.

Definition files (segs : list string) : ErrnoException + string :=
  if decide (segs = ["data"; "profile.json"]) then inr "{}"
  else if decide (segs = ["data"; "posts"; "post-1.md"]) then inr "# Hello"
  else if decide (segs = ["data"; "posts"; "empty.md"]) then inr ""
  else if decide (segs = ["data"; "posts"; "locked.md"]) then inl EACCES
  else inl ENOENT.

Definition env0 : Env := {| readFile := files; env_PORT := None |}.

Definition post (accept : option string) (body : Json) : Request :=
  {| accept := accept; host := Some "localhost:3000"; protocol := "http"; body := body |}.

Definition describe (requestHost requestProtocol : string) : Request :=
  {| accept := None; host := Some requestHost; protocol := requestProtocol;
     body := JObject [] |}.

Definition stream : option string := Some "text/event-stream".

Definition no_context_id : Json := JObject [].
Definition empty_context_id : Json := JObject [("context_id", JString "")].
Definition profile : Json := JObject [("context_id", JString "profile")].
Definition blog_posts_list : Json := JObject [("context_id", JString "blog_posts_list")].
Definition unknown : Json := JObject [("context_id", JString "nope")].
Definition no_params : Json := JObject [("context_id", JString "blog_post_content")].
Definition blog_post_content (post_id : string) : Json :=
  JObject [("context_id", JString "blog_post_content");
           ("params", JObject [("post_id", JString post_id)])].

Definition MissingParameter : Json :=
  error_payload "Missing required parameter 'post_id' for context 'blog_post_content'".

Definition InternalError : Json := error_payload "Internal server error".

(** The text of [{"error":"<message>"}]. *)
Definition error_text (message : string) : string :=
  "{" ++ dquote ++ "error" ++ dquote ++ ":" ++ dquote ++ message ++ dquote ++ "}".

(** A store whose documents are there but are not JSON. *)
Definition corrupt : Env := {| readFile := fun _ => inr "not json"; env_PORT := None |}.

Definition array_id : Json := JObject [("context_id", JArray [JString "profile"])].

Definition object_id : Json :=
  JObject [("context_id", JObject [("toString", JNull)])].

Definition no_host : Request :=
  {| accept := None; host := None; protocol := "http"; body := JObject [] |}.

End Sample.

(** * Properties *)

(** ** The states of [res] along a request *)

Section Facts.
Context `{JsonParser}.
Variable env : Env.

Definition cors_headers : gmap string string :=
  <["Access-Control-Allow-Methods" := "GET, POST, OPTIONS"]>
    (<["Access-Control-Allow-Headers" := "Origin, X-Requested-With, Content-Type, Accept"]>
       (<["Access-Control-Allow-Origin" := "*"]> ∅)).

Definition sse_headers : gmap string string :=
  <["X-Accel-Buffering" := "no"]>
    (<["Connection" := "keep-alive"]>
       (<["Cache-Control" := "no-cache"]>
          (<["Content-Type" := "text/event-stream"]> cors_headers))).

Definition json_headers : gmap string string :=
  <["Content-Type" := "application/json; charset=utf-8"]>
    (<["Content-Type" := "application/json"]> cors_headers).

(** [res] when the route is entered. *)
Definition after_cors : Response :=
  {| statusCode := 200; headers := cors_headers; wire := None;
     chunks := []; writableEnded := false |}.

(** [res] after [res.status(code).json(payload)] on a pending head. *)
Definition answered (code : Z) (payload : Json) : Response :=
  {| statusCode := code; headers := json_headers; wire := Some (code, json_headers);
     chunks := [JSON_stringify payload]; writableEnded := true |}.

(** [res] once [setupSSE] has flushed the head of the event stream;
    [code] is whatever [res.statusCode] holds by now. *)
Definition streaming (code : Z) : Response :=
  {| statusCode := code; headers := sse_headers; wire := Some (200, sse_headers);
     chunks := []; writableEnded := false |}.

(** [res] after one frame was written on the stream and the stream
    closed. *)
Definition streamed (code : Z) (payload : Json) : Response :=
  {| statusCode := code; headers := sse_headers; wire := Some (200, sse_headers);
     chunks := [sse_frame payload]; writableEnded := true |}.

(** What the client has received: a JSON document under [code], or one
    frame of an event stream. *)
Definition plain_reply (r : Response) (code : Z) (payload : Json) : Prop :=
  http_status r = code /\
  http_header r "Content-Type" = Some "application/json; charset=utf-8" /\
  chunks r = [JSON_stringify payload] /\
  writableEnded r = true.

Definition sse_reply (r : Response) (payload : Json) : Prop :=
  http_status r = 200 /\
  http_header r "Content-Type" = Some "text/event-stream" /\
  chunks r = [sse_frame payload] /\
  writableEnded r = true.

(** A payload delivered with status 200 through the transport the
    request negotiated. *)
Definition delivered (req : Request) (r : Response) (payload : Json) : Prop :=
  if isSse req then sse_reply r payload else plain_reply r 200 payload.

Lemma answered_plain code payload : plain_reply (answered code payload) code payload.
Proof. repeat split. Qed.

Lemma streamed_sse code payload : sse_reply (streamed code payload) payload.
Proof. repeat split. Qed.

Lemma streamed_status code payload : http_status (streamed code payload) = 200.
Proof. reflexivity. Qed.

Lemma cors_next (next : Eff unit) :
  corsMiddleware "POST" next fresh_response = next after_cors.
Proof. reflexivity. Qed.

Lemma cors_next_get (next : Eff unit) :
  corsMiddleware "GET" next fresh_response = next after_cors.
Proof. reflexivity. Qed.

Lemma setupSSE_after_cors req :
  setupSSE req after_cors =
  (Normal (isSse req), if isSse req then streaming 200 else after_cors).
Proof. unfold setupSSE. destruct (isSse req); reflexivity. Qed.

(** The late [res.json]: the head is out, [setHeader] throws. *)
Lemma json_late payload r :
  headersSent r = true -> res_json payload r = (Throw ERR_HTTP_HEADERS_SENT, r).
Proof.
  intros Hsent. unfold res_json, bind, res_getHeader, res_setHeader, ret.
  destruct (headers r !! "Content-Type"); rewrite Hsent; reflexivity.
Qed.

Lemma serve_mcp_unfold req :
  serve_mcp env req =
  exec (try_catch (try_block env (isSse req) (get_prop (body req) "context_id")
                             (get_prop (body req) "params"))
                  (catch_block (isSse req)))
       (if isSse req then streaming 200 else after_cors).
Proof.
  unfold serve_mcp, exec, post_mcp. rewrite cors_next.
  unfold bind at 1. rewrite setupSSE_after_cors. reflexivity.
Qed.

(** ** The data-access helpers *)

Lemma getUserProfile_value :
  getUserProfile env =
  Normal match readFile env ["data"; "profile.json"] with
         | inr data => default default_profile (JSON_parse data)
         | inl _ => default_profile
         end.
Proof.
  unfold getUserProfile, fs_readFile, parse.
  destruct (readFile env _) as [e|data]; [reflexivity|].
  cbn. destruct (JSON_parse data); reflexivity.
Qed.

Lemma getBlogPosts_value :
  getBlogPosts env =
  Normal match readFile env ["data"; "posts"; "index.json"] with
         | inr data => default default_posts (JSON_parse data)
         | inl _ => default_posts
         end.
Proof.
  unfold getBlogPosts, fs_readFile, parse.
  destruct (readFile env _) as [e|data]; [reflexivity|].
  cbn. destruct (JSON_parse data); reflexivity.
Qed.

Lemma getBlogPostContent_value postId id :
  template postId = Normal id ->
  getBlogPostContent env postId =
  Normal match readFile env ["data"; "posts"; id ++ ".md"] with
         | inr data => JString data
         | inl _ => JNull
         end.
Proof.
  intros Hid. unfold getBlogPostContent, fs_readFile. rewrite Hid. cbn.
  destruct (readFile env _); reflexivity.
Qed.

Lemma truthy_post_id params :
  truthy (post_id_of params) = true -> truthy params = true.
Proof. destruct params as [[]|]; cbn; try discriminate; reflexivity. Qed.

(** ** The response of [POST /mcp], path by path *)

Ltac enter_try_block :=
  rewrite serve_mcp_unfold;
  unfold exec, try_catch, try_block, catch_block, dispatch, console, lift.

Lemma run_missing_context_id req :
  truthy (get_prop (body req) "context_id") = false ->
  serve_mcp env req =
  if isSse req then streamed 200 (error_payload "context_id is required")
  else answered 400 (error_payload "context_id is required").
Proof.
  intros Hid. enter_try_block. rewrite Hid.
  destruct (isSse req); reflexivity.
Qed.

Lemma run_profile req :
  get_prop (body req) "context_id" = Some (JString "profile") ->
  exists profile,
    getUserProfile env = Normal profile /\
    serve_mcp env req =
    let payload := responseData (JString (JSON_stringify profile)) "application/json" in
    if isSse req then streamed 200 payload else answered 200 payload.
Proof.
  intros Hctx. eexists. split; [apply getUserProfile_value|].
  enter_try_block. rewrite Hctx. cbn [strict_eq]. unfold bind.
  rewrite getUserProfile_value. destruct (isSse req); reflexivity.
Qed.

Lemma run_blog_posts_list req :
  get_prop (body req) "context_id" = Some (JString "blog_posts_list") ->
  exists posts,
    getBlogPosts env = Normal posts /\
    serve_mcp env req =
    let payload := responseData (JString (JSON_stringify posts)) "application/json" in
    if isSse req then streamed 200 payload else answered 200 payload.
Proof.
  intros Hctx. eexists. split; [apply getBlogPosts_value|].
  enter_try_block. rewrite Hctx. cbn [strict_eq]. unfold bind.
  rewrite getBlogPosts_value. destruct (isSse req); reflexivity.
Qed.

Lemma run_missing_post_id req :
  get_prop (body req) "context_id" = Some (JString "blog_post_content") ->
  truthy (post_id_of (get_prop (body req) "params")) = false ->
  serve_mcp env req =
  if isSse req then streamed 400 (error_payload "Internal server error")
  else answered 400 (error_payload
                       "Missing required parameter 'post_id' for context 'blog_post_content'").
Proof.
  intros Hctx Hpid. enter_try_block. rewrite Hctx. cbn [strict_eq].
  rewrite Hpid, orb_true_r.
  destruct (isSse req); reflexivity.
Qed.

Lemma run_post_found req content :
  get_prop (body req) "context_id" = Some (JString "blog_post_content") ->
  truthy (post_id_of (get_prop (body req) "params")) = true ->
  getBlogPostContent env (post_id_of (get_prop (body req) "params")) = Normal content ->
  truthy (Some content) = true ->
  serve_mcp env req =
  if isSse req then streamed 200 (responseData content "text/markdown")
  else answered 200 (responseData content "text/markdown").
Proof.
  intros Hctx Hpid Hget Htruthy. enter_try_block. rewrite Hctx. cbn [strict_eq].
  rewrite (truthy_post_id _ Hpid), Hpid. unfold bind.
  destruct (isSse req); rewrite Hget, Htruthy; reflexivity.
Qed.

Lemma run_post_not_found req id content :
  get_prop (body req) "context_id" = Some (JString "blog_post_content") ->
  truthy (post_id_of (get_prop (body req) "params")) = true ->
  template (post_id_of (get_prop (body req) "params")) = Normal id ->
  getBlogPostContent env (post_id_of (get_prop (body req) "params")) = Normal content ->
  truthy (Some content) = false ->
  serve_mcp env req =
  if isSse req then streamed 404 (error_payload "Internal server error")
  else answered 404 (error_payload ("Blog post with id '" ++ id ++ "' not found")).
Proof.
  intros Hctx Hpid Hid Hget Hfalsy. enter_try_block. rewrite Hctx. cbn [strict_eq].
  rewrite (truthy_post_id _ Hpid), Hpid. unfold bind.
  destruct (isSse req); rewrite Hget, Hid, Hfalsy; reflexivity.
Qed.

Lemma run_unknown_context req id :
  truthy (get_prop (body req) "context_id") = true ->
  strict_eq (get_prop (body req) "context_id") "profile" = false ->
  strict_eq (get_prop (body req) "context_id") "blog_posts_list" = false ->
  strict_eq (get_prop (body req) "context_id") "blog_post_content" = false ->
  template (get_prop (body req) "context_id") = Normal id ->
  serve_mcp env req =
  if isSse req then streamed 404 (error_payload "Internal server error")
  else answered 404 (error_payload ("Context with id '" ++ id ++ "' not found")).
Proof.
  intros Htruthy Hp Hl Hc Hid. enter_try_block.
  rewrite Htruthy, Hp, Hl, Hc. unfold bind. rewrite Hid.
  destruct (isSse req); reflexivity.
Qed.

Lemma run_internal_error req e :
  truthy (get_prop (body req) "context_id") = true ->
  template (get_prop (body req) "context_id") = Throw e ->
  serve_mcp env req =
  if isSse req then streamed 200 (error_payload "Internal server error")
  else answered 500 (error_payload "Internal server error").
Proof.
  intros Htruthy Hid. enter_try_block.
  rewrite Htruthy. unfold bind. rewrite Hid.
  destruct (isSse req); reflexivity.
Qed.

Lemma run_metadata req :
  serve_metadata env req =
  if isSse req then streamed 200 (getMcpMetadata env req)
  else answered 200 (getMcpMetadata env req).
Proof.
  unfold serve_metadata, exec, get_metadata. rewrite cors_next_get.
  unfold bind at 1. rewrite setupSSE_after_cors.
  destruct (isSse req); reflexivity.
Qed.

Lemma getBlogPostContent_throws postId e :
  template postId = Throw e -> getBlogPostContent env postId = Throw e.
Proof. intros Hid. unfold getBlogPostContent. rewrite Hid. reflexivity. Qed.

Lemma run_post_throws req e :
  get_prop (body req) "context_id" = Some (JString "blog_post_content") ->
  truthy (post_id_of (get_prop (body req) "params")) = true ->
  getBlogPostContent env (post_id_of (get_prop (body req) "params")) = Throw e ->
  serve_mcp env req =
  if isSse req then streamed 200 (error_payload "Internal server error")
  else answered 500 (error_payload "Internal server error").
Proof.
  intros Hctx Hpid Hget. enter_try_block. rewrite Hctx. cbn [strict_eq].
  rewrite (truthy_post_id _ Hpid), Hpid. unfold bind.
  destruct (isSse req); rewrite Hget; reflexivity.
Qed.

Lemma strict_eq_true v name : strict_eq v name = true -> v = Some (JString name).
Proof.
  destruct v as [[]|]; cbn; try discriminate.
  intros Heq. apply String.eqb_eq in Heq. congruence.
Qed.

(** Every request is answered, once, and in the envelope that was
    negotiated: a JSON document for a plain request, one frame on the
    event stream otherwise. *)
Lemma negotiated_envelope req :
  exists code code' payload payload',
    serve_mcp env req =
    if isSse req then streamed code payload else answered code' payload'.
Proof.
  destruct (truthy (get_prop (body req) "context_id")) eqn:Htruthy;
    [|do 4 eexists; apply (run_missing_context_id req Htruthy)].
  destruct (template (get_prop (body req) "context_id")) as [id|e] eqn:Hid;
    [|do 4 eexists; apply (run_internal_error req e Htruthy Hid)].
  destruct (strict_eq (get_prop (body req) "context_id") "profile") eqn:Hp.
  { destruct (run_profile req (strict_eq_true _ _ Hp)) as (v & _ & Hrun).
    do 4 eexists. exact Hrun. }
  destruct (strict_eq (get_prop (body req) "context_id") "blog_posts_list") eqn:Hl.
  { destruct (run_blog_posts_list req (strict_eq_true _ _ Hl)) as (v & _ & Hrun).
    do 4 eexists. exact Hrun. }
  destruct (strict_eq (get_prop (body req) "context_id") "blog_post_content") eqn:Hc;
    [|do 4 eexists; apply (run_unknown_context req id Htruthy Hp Hl Hc Hid)].
  apply strict_eq_true in Hc.
  destruct (truthy (post_id_of (get_prop (body req) "params"))) eqn:Hpid;
    [|do 4 eexists; apply (run_missing_post_id req Hc Hpid)].
  destruct (template (post_id_of (get_prop (body req) "params"))) as [pid|e] eqn:Hpost.
  - pose proof (getBlogPostContent_value _ pid Hpost) as Hget.
    destruct (truthy (Some (match readFile env ["data"; "posts"; pid ++ ".md"] with
                            | inr data => JString data
                            | inl _ => JNull
                            end))) eqn:Hcontent.
    + do 4 eexists. apply (run_post_found req _ Hc Hpid Hget Hcontent).
    + do 4 eexists. apply (run_post_not_found req pid _ Hc Hpid Hpost Hget Hcontent).
  - do 4 eexists.
    apply (run_post_throws req e Hc Hpid (getBlogPostContent_throws _ e Hpost)).
Qed.

End Facts.

(** ** The claims of the specification *)

Section Claims.
Context `{JsonParser}.
Variable env : Env.

(** The head of an event stream: sent by [setupSSE] before the request is
    looked at, with the status [res] had at that moment. *)
Definition sse_head (r : Response) : Prop :=
  http_status r = 200 /\ http_header r "Content-Type" = Some "text/event-stream".

(** C1, as amended.  A dispatch request whose body has no (truthy)
    context_id is answered with the payload [{error: "context_id is
    required"}]: as a JSON document under status 400 when the request is
    a plain one, and as the single frame of an event stream, whose status
    is 200, when the request negotiated SSE. *)
Theorem C1_missing_context_id req :
  truthy (get_prop (body req) "context_id") = false ->
  if isSse req
  then sse_reply (serve_mcp env req) (error_payload "context_id is required")
  else plain_reply (serve_mcp env req) 400 (error_payload "context_id is required").
Proof.
  intros Hid. rewrite (run_missing_context_id env req Hid).
  destruct (isSse req); [apply streamed_sse | apply answered_plain].
Qed.

(** The server is started by [app.listen] (line 262), which serves plain
    HTTP, and "trust proxy" is never enabled: [req.protocol] is "http"
    for every request the program receives. *)
Definition received (req : Request) : Prop := protocol req = "http".

(** C4.  root_url is scheme://host.  For every request the program
    receives the scheme is http exactly when the host begins with
    "localhost"; a host that does not begin with "localhost" gets https
    whatever the inbound protocol is.  The two requests of the
    specification give http://localhost:3000 and https://example.com. *)
Theorem C4_root_url req :
  (received req ->
   (scheme env req = "http" <->
    Js.startsWith (effective_host env req) "localhost" = true)) /\
  (Js.startsWith (effective_host env req) "localhost" = false ->
   scheme env req = "https") /\
  get_prop (getMcpMetadata env req) "root_url"
  = Some (JString (scheme env req ++ "://" ++ effective_host env req)) /\
  (forall a b,
      get_prop (getMcpMetadata env {| accept := a; host := Some "localhost:3000";
                                      protocol := "http"; body := b |}) "root_url"
      = Some (JString "http://localhost:3000")) /\
  (forall a b,
      get_prop (getMcpMetadata env {| accept := a; host := Some "example.com";
                                      protocol := "http"; body := b |}) "root_url"
      = Some (JString "https://example.com")).
Proof.
  split; [|split; [|split; [|split]]].
  - unfold received, scheme. intros ->. cbn [String.eqb].
    change (String.eqb "http" "http") with true. cbn [andb].
    destruct (Js.startsWith (effective_host env req) "localhost");
      split; intros Heq; try reflexivity; discriminate.
  - unfold scheme. intros ->. rewrite andb_false_r. reflexivity.
  - reflexivity.
  - reflexivity.
  - reflexivity.
Qed.

(** C5, as amended.  A plain dispatch request for "blog_post_content"
    whose params are missing or carry no (truthy) post_id is answered
    with status 400 and the MissingParameter error as a JSON document.
    When the request negotiated SSE the head of the event stream is
    already out, so its status is 200. *)
Theorem C5_missing_post_id req :
  get_prop (body req) "context_id" = Some (JString "blog_post_content") ->
  truthy (post_id_of (get_prop (body req) "params")) = false ->
  if isSse req
  then sse_head (serve_mcp env req)
  else plain_reply (serve_mcp env req) 400
         (error_payload
            "Missing required parameter 'post_id' for context 'blog_post_content'").
Proof.
  intros Hctx Hpid. rewrite (run_missing_post_id env req Hctx Hpid).
  destruct (isSse req); [split; reflexivity | apply answered_plain].
Qed.

(** C6.  A successful dispatch carries the format of the catalog: the
    response is [{context: {content, format}}] where "profile" gives the
    JSON text of the profile as application/json, "blog_posts_list" the
    JSON text of the post list as application/json, and
    "blog_post_content" the text of the post as text/markdown; each is
    delivered under status 200 through the negotiated transport. *)
Theorem C6_formats req :
  (get_prop (body req) "context_id" = Some (JString "profile") ->
   exists profile,
     getUserProfile env = Normal profile /\
     delivered req (serve_mcp env req)
       (JObject [("context",
                  JObject [("content", JString (JSON_stringify profile));
                           ("format", JString "application/json")])])) /\
  (get_prop (body req) "context_id" = Some (JString "blog_posts_list") ->
   exists posts,
     getBlogPosts env = Normal posts /\
     delivered req (serve_mcp env req)
       (JObject [("context",
                  JObject [("content", JString (JSON_stringify posts));
                           ("format", JString "application/json")])])) /\
  (get_prop (body req) "context_id" = Some (JString "blog_post_content") ->
   forall id text,
     truthy (post_id_of (get_prop (body req) "params")) = true ->
     template (post_id_of (get_prop (body req) "params")) = Normal id ->
     readFile env ["data"; "posts"; id ++ ".md"] = inr text ->
     text <> "" ->
     delivered req (serve_mcp env req)
       (JObject [("context",
                  JObject [("content", JString text);
                           ("format", JString "text/markdown")])])).
Proof.
  unfold delivered. repeat split.
  - intros Hctx. destruct (run_profile env req Hctx) as (profile & Hget & ->).
    exists profile. split; [exact Hget|]. cbv zeta.
    destruct (isSse req); [apply streamed_sse | apply answered_plain].
  - intros Hctx. destruct (run_blog_posts_list env req Hctx) as (posts & Hget & ->).
    exists posts. split; [exact Hget|]. cbv zeta.
    destruct (isSse req); [apply streamed_sse | apply answered_plain].
  - intros Hctx id text Hpid Hid Hread Htext.
    rewrite (run_post_found env req (JString text) Hctx Hpid).
    + destruct (isSse req); [apply streamed_sse | apply answered_plain].
    + rewrite (getBlogPostContent_value env _ id Hid), Hread. reflexivity.
    + cbn. destruct (String.eqb_spec text ""); [contradiction | reflexivity].
Qed.

(** C7, as amended.  A plain dispatch request for "blog_post_content"
    with a post_id for which [getBlogPostContent] reports absence is
    answered with status 404 and the body
    [{"error":"Blog post with id '<post_id>' not found"}].  When the
    request negotiated SSE the head of the event stream is already out,
    so its status is 200. *)
Theorem C7_post_not_found req id :
  get_prop (body req) "context_id" = Some (JString "blog_post_content") ->
  truthy (post_id_of (get_prop (body req) "params")) = true ->
  template (post_id_of (get_prop (body req) "params")) = Normal id ->
  getBlogPostContent env (post_id_of (get_prop (body req) "params")) = Normal JNull ->
  if isSse req
  then sse_head (serve_mcp env req)
  else plain_reply (serve_mcp env req) 404
         (error_payload ("Blog post with id '" ++ id ++ "' not found")).
Proof.
  intros Hctx Hpid Hid Hget.
  rewrite (run_post_not_found env req id JNull Hctx Hpid Hid Hget eq_refl).
  destruct (isSse req); [split; reflexivity | apply answered_plain].
Qed.

(** C8, as amended.  A plain dispatch request whose context_id is truthy
    (for a string: not empty), is none of "profile", "blog_posts_list"
    and "blog_post_content", and can be printed, as <id>, is answered
    with status 404 and [{"error":"Context with id '<id>' not found"}].
    (A context_id that cannot be printed ends in the catch block.)  When
    the request negotiated SSE the head of the event stream is already
    out, so its status is 200. *)
Theorem C8_unknown_context req id :
  truthy (get_prop (body req) "context_id") = true ->
  strict_eq (get_prop (body req) "context_id") "profile" = false ->
  strict_eq (get_prop (body req) "context_id") "blog_posts_list" = false ->
  strict_eq (get_prop (body req) "context_id") "blog_post_content" = false ->
  template (get_prop (body req) "context_id") = Normal id ->
  if isSse req
  then sse_head (serve_mcp env req)
  else plain_reply (serve_mcp env req) 404
         (error_payload ("Context with id '" ++ id ++ "' not found")).
Proof.
  intros Htruthy Hp Hl Hc Hid.
  rewrite (run_unknown_context env req id Htruthy Hp Hl Hc Hid).
  destruct (isSse req); [split; reflexivity | apply answered_plain].
Qed.

(** C9.  The helpers absorb every failure of the store.  [getUserProfile]
    and [getBlogPosts] always return a value, which is the built-in
    default whenever the read fails; [getBlogPostContent] returns null
    whatever the error of the read is, a missing file or any other, and
    the dispatcher then answers a plain request with its 404 for that
    post, the response not depending on which error it was. *)
Theorem C9_storage_failures_absorbed :
  (exists profile, getUserProfile env = Normal profile) /\
  (forall e, readFile env ["data"; "profile.json"] = inl e ->
             getUserProfile env = Normal default_profile) /\
  (exists posts, getBlogPosts env = Normal posts) /\
  (forall e, readFile env ["data"; "posts"; "index.json"] = inl e ->
             getBlogPosts env = Normal default_posts) /\
  (forall postId e,
      readFile env ["data"; "posts"; postId ++ ".md"] = inl e ->
      getBlogPostContent env (Some (JString postId)) = Normal JNull) /\
  (forall req postId e,
      get_prop (body req) "context_id" = Some (JString "blog_post_content") ->
      post_id_of (get_prop (body req) "params") = Some (JString postId) ->
      postId <> "" ->
      readFile env ["data"; "posts"; postId ++ ".md"] = inl e ->
      (isSse req = false ->
       plain_reply (serve_mcp env req) 404
         (error_payload ("Blog post with id '" ++ postId ++ "' not found"))) /\
      (forall env' e',
          readFile env' ["data"; "posts"; postId ++ ".md"] = inl e' ->
          serve_mcp env req = serve_mcp env' req)).
Proof.
  assert (Hnull : forall (env1 : Env) postId e,
             readFile env1 ["data"; "posts"; postId ++ ".md"] = inl e ->
             getBlogPostContent env1 (Some (JString postId)) = Normal JNull).
  { intros env1 postId e Hread.
    rewrite (getBlogPostContent_value env1 (Some (JString postId)) postId eq_refl), Hread.
    reflexivity. }
  split; [eexists; apply getUserProfile_value|].
  split; [intros e Hread; rewrite getUserProfile_value, Hread; reflexivity|].
  split; [eexists; apply getBlogPosts_value|].
  split; [intros e Hread; rewrite getBlogPosts_value, Hread; reflexivity|].
  split; [apply Hnull|].
  intros req postId e Hctx Hpid Hne Hread.
  assert (Htruthy : truthy (post_id_of (get_prop (body req) "params")) = true).
  { rewrite Hpid. cbn. destruct (String.eqb_spec postId ""); [contradiction | reflexivity]. }
  assert (Hid : template (post_id_of (get_prop (body req) "params")) = Normal postId).
  { rewrite Hpid. reflexivity. }
  assert (Hrun : forall (env1 : Env) e1,
             readFile env1 ["data"; "posts"; postId ++ ".md"] = inl e1 ->
             serve_mcp env1 req =
             if isSse req then streamed 404 (error_payload "Internal server error")
             else answered 404
                    (error_payload ("Blog post with id '" ++ postId ++ "' not found"))).
  { intros env1 e1 Hread1.
    apply (run_post_not_found env1 req postId JNull Hctx Htruthy Hid); [|reflexivity].
    rewrite Hpid. apply (Hnull env1 postId e1 Hread1). }
  split.
  - intros Hplain. rewrite (Hrun env e Hread), Hplain. apply answered_plain.
  - intros env' e' Hread'. rewrite (Hrun env e Hread), (Hrun env' e' Hread'). reflexivity.
Qed.

(** C10, as amended.  When the file of the post is there and empty, the
    truthiness test on the content sends the request down the same path
    as a post that is absent: the response is the one an absent post
    gets, which for a plain request is status 404 with
    [{"error":"Blog post with id '<post_id>' not found"}], and not a
    success envelope with empty content.  When the request negotiated SSE
    the head of the event stream is already out, so its status is 200. *)
Theorem C10_empty_post_is_not_found req id :
  get_prop (body req) "context_id" = Some (JString "blog_post_content") ->
  truthy (post_id_of (get_prop (body req) "params")) = true ->
  template (post_id_of (get_prop (body req) "params")) = Normal id ->
  readFile env ["data"; "posts"; id ++ ".md"] = inr "" ->
  (forall env' e,
      readFile env' ["data"; "posts"; id ++ ".md"] = inl e ->
      serve_mcp env req = serve_mcp env' req) /\
  (if isSse req
   then sse_head (serve_mcp env req)
   else plain_reply (serve_mcp env req) 404
          (error_payload ("Blog post with id '" ++ id ++ "' not found"))).
Proof.
  intros Hctx Hpid Hid Hread.
  assert (Hrun := run_post_not_found env req id (JString "") Hctx Hpid Hid).
  rewrite (getBlogPostContent_value env _ id Hid), Hread in Hrun.
  specialize (Hrun eq_refl eq_refl). split.
  - intros env' e Hread'. rewrite Hrun.
    rewrite (run_post_not_found env' req id JNull Hctx Hpid Hid); [reflexivity| |reflexivity].
    rewrite (getBlogPostContent_value env' _ id Hid), Hread'. reflexivity.
  - rewrite Hrun. destruct (isSse req); [split; reflexivity | apply answered_plain].
Qed.

End Claims.

(** ** The claims on the sample runtime *)

Section Examples.
Import Sample.
#[local] Existing Instance ZNumber.
#[local] Existing Instance parser.

Lemma C1_missing_context_id_witness :
  truthy (get_prop (body (post None no_context_id)) "context_id") = false /\
  plain_reply (serve_mcp env0 (post None no_context_id)) 400
    (error_payload "context_id is required") /\
  sse_reply (serve_mcp env0 (post stream no_context_id))
    (error_payload "context_id is required").
Proof.
  split; [reflexivity|]. split.
  - exact (C1_missing_context_id env0 (post None no_context_id) eq_refl).
  - exact (C1_missing_context_id env0 (post stream no_context_id) eq_refl).
Defined.

(** C1 fails as stated: with [Accept: text/event-stream] and no
    context_id the status is 200, not 400. *)
Lemma C1_sse_status_is_200 :
  get_prop (body (post stream no_context_id)) "context_id" = undefined /\
  isSse (post stream no_context_id) = true /\
  http_status (serve_mcp env0 (post stream no_context_id)) = 200 /\
  http_status (serve_mcp env0 (post stream no_context_id)) <> 400.
Proof. vm_compute. repeat split. intro; discriminate. Qed.

(** C2 at the failing input: under [Accept: text/event-stream] the
    MissingParameter and ContextNotFound outcomes are not delivered in a
    frame of the stream.  Their sites call [res.status(..).json(..)] on
    the flushed response, and what reaches the client is the frame of the
    catch block. *)
Theorem C2_error_sites_miss_negotiation :
  isSse (post stream no_params) = true /\
  chunks (serve_mcp env0 (post stream no_params)) = [sse_frame InternalError] /\
  chunks (serve_mcp env0 (post stream no_params)) <> [sse_frame MissingParameter] /\
  chunks (serve_mcp env0 (post stream (blog_post_content "missing-id")))
  <> [sse_frame (error_payload "Blog post with id 'missing-id' not found")] /\
  chunks (serve_mcp env0 (post stream unknown))
  <> [sse_frame (error_payload "Context with id 'nope' not found")].
Proof. vm_compute. repeat split; intro; discriminate. Qed.

(** C3 at the failing input: for an unknown context id the plain request
    gets [{"error":"Context with id 'nope' not found"}] and the streamed
    one a frame that carries another payload. *)
Theorem C3_payloads_differ :
  body (post None unknown) = body (post stream unknown) /\
  http_body (serve_mcp env0 (post None unknown))
  = error_text "Context with id 'nope' not found" /\
  http_body (serve_mcp env0 (post stream unknown))
  = "data: " ++ error_text "Internal server error" ++ Js.LF ++ Js.LF /\
  http_body (serve_mcp env0 (post stream unknown))
  <> "data: " ++ http_body (serve_mcp env0 (post None unknown)) ++ Js.LF ++ Js.LF.
Proof. vm_compute. repeat split. intro; discriminate. Qed.

Lemma C4_root_url_witness :
  received (describe "localhost:3000" "http") /\
  Js.startsWith (effective_host env0 (describe "localhost:3000" "http")) "localhost" = true /\
  scheme env0 (describe "localhost:3000" "http") = "http" /\
  Js.startsWith (effective_host env0 (describe "example.com" "http")) "localhost" = false /\
  scheme env0 (describe "example.com" "http") = "https".
Proof.
  split; [reflexivity|]. split; [reflexivity|]. split; [|split; [reflexivity|]].
  - exact (proj2 (proj1 (C4_root_url env0 (describe "localhost:3000" "http")) eq_refl)
             eq_refl).
  - exact (proj1 (proj2 (C4_root_url env0 (describe "example.com" "http"))) eq_refl).
Defined.

Lemma C5_missing_post_id_witness :
  get_prop (body (post None no_params)) "context_id" = Some (JString "blog_post_content") /\
  truthy (post_id_of (get_prop (body (post None no_params)) "params")) = false /\
  plain_reply (serve_mcp env0 (post None no_params)) 400 MissingParameter.
Proof.
  split; [reflexivity|]. split; [reflexivity|].
  exact (C5_missing_post_id env0 (post None no_params) eq_refl eq_refl).
Defined.

(** C5 fails as stated: with [Accept: text/event-stream] the status is
    200, not 400. *)
Lemma C5_sse_status_is_200 :
  isSse (post stream no_params) = true /\
  http_status (serve_mcp env0 (post stream no_params)) = 200 /\
  http_status (serve_mcp env0 (post stream no_params)) <> 400.
Proof. vm_compute. repeat split. intro; discriminate. Qed.

Lemma C6_formats_witness :
  delivered (post None profile) (serve_mcp env0 (post None profile))
    (JObject [("context",
               JObject [("content", JString "{}");
                        ("format", JString "application/json")])]) /\
  http_body (serve_mcp env0 (post None profile))
  = "{" ++ dquote ++ "context" ++ dquote ++ ":{"
        ++ dquote ++ "content" ++ dquote ++ ":" ++ dquote ++ "{}" ++ dquote ++ ","
        ++ dquote ++ "format" ++ dquote ++ ":" ++ dquote ++ "application/json" ++ dquote
        ++ "}}" /\
  delivered (post stream blog_posts_list) (serve_mcp env0 (post stream blog_posts_list))
    (JObject [("context",
               JObject [("content", JString (JSON_stringify default_posts));
                        ("format", JString "application/json")])]) /\
  delivered (post None (blog_post_content "post-1"))
    (serve_mcp env0 (post None (blog_post_content "post-1")))
    (JObject [("context",
               JObject [("content", JString "# Hello");
                        ("format", JString "text/markdown")])]) /\
  http_body (serve_mcp env0 (post None (blog_post_content "post-1")))
  = "{" ++ dquote ++ "context" ++ dquote ++ ":{"
        ++ dquote ++ "content" ++ dquote ++ ":" ++ dquote ++ "# Hello" ++ dquote ++ ","
        ++ dquote ++ "format" ++ dquote ++ ":" ++ dquote ++ "text/markdown" ++ dquote
        ++ "}}".
Proof.
  split; [|split; [reflexivity|split; [|split; [|reflexivity]]]].
  - destruct (proj1 (C6_formats env0 (post None profile)) eq_refl)
      as (value & Hvalue & Hreply).
    injection Hvalue as <-. exact Hreply.
  - destruct (proj1 (proj2 (C6_formats env0 (post stream blog_posts_list))) eq_refl)
      as (value & Hvalue & Hreply).
    injection Hvalue as <-. exact Hreply.
  - refine (proj2 (proj2 (C6_formats env0 (post None (blog_post_content "post-1"))))
              eq_refl "post-1" "# Hello" eq_refl eq_refl eq_refl _).
    discriminate.
Defined.

Lemma C7_post_not_found_witness :
  getBlogPostContent env0 (Some (JString "missing-id")) = Normal JNull /\
  plain_reply (serve_mcp env0 (post None (blog_post_content "missing-id"))) 404
    (error_payload "Blog post with id 'missing-id' not found") /\
  http_body (serve_mcp env0 (post None (blog_post_content "missing-id")))
  = error_text "Blog post with id 'missing-id' not found".
Proof.
  split; [reflexivity|]. split; [|reflexivity].
  exact (C7_post_not_found env0 (post None (blog_post_content "missing-id")) "missing-id"
           eq_refl eq_refl eq_refl eq_refl).
Defined.

(** C7 fails as stated: with [Accept: text/event-stream] the status is
    200, not 404. *)
Lemma C7_sse_status_is_200 :
  getBlogPostContent env0 (Some (JString "missing-id")) = Normal JNull /\
  isSse (post stream (blog_post_content "missing-id")) = true /\
  http_status (serve_mcp env0 (post stream (blog_post_content "missing-id"))) = 200 /\
  http_status (serve_mcp env0 (post stream (blog_post_content "missing-id"))) <> 404.
Proof. vm_compute. repeat split. intro; discriminate. Qed.

Lemma C8_unknown_context_witness :
  truthy (get_prop (body (post None unknown)) "context_id") = true /\
  plain_reply (serve_mcp env0 (post None unknown)) 404
    (error_payload "Context with id 'nope' not found").
Proof.
  split; [reflexivity|].
  exact (C8_unknown_context env0 (post None unknown) "nope"
           eq_refl eq_refl eq_refl eq_refl eq_refl).
Defined.

(** C8 fails as stated: the context_id [""] is in the body and is none
    of the three names, yet the status is 400; a context_id that is an
    object with a property named toString is there, truthy and none of
    the three names, yet the status is 500; and with
    [Accept: text/event-stream] the status for "nope" is 200. *)
Lemma C8_empty_context_id_is_400 :
  get_prop (body (post None empty_context_id)) "context_id" = Some (JString "") /\
  http_status (serve_mcp env0 (post None empty_context_id)) = 400 /\
  http_status (serve_mcp env0 (post None empty_context_id)) <> 404 /\
  truthy (get_prop (body (post None object_id)) "context_id") = true /\
  http_status (serve_mcp env0 (post None object_id)) = 500 /\
  http_status (serve_mcp env0 (post None object_id)) <> 404 /\
  http_status (serve_mcp env0 (post stream unknown)) = 200 /\
  http_status (serve_mcp env0 (post stream unknown)) <> 404.
Proof. vm_compute. repeat split; intro; discriminate. Qed.

Lemma C9_storage_failures_absorbed_witness :
  readFile env0 ["data"; "posts"; "index.json"] = inl ENOENT /\
  getBlogPosts env0 = Normal default_posts /\
  readFile env0 ["data"; "posts"; "locked.md"] = inl EACCES /\
  getBlogPostContent env0 (Some (JString "locked")) = Normal JNull /\
  plain_reply (serve_mcp env0 (post None (blog_post_content "locked"))) 404
    (error_payload "Blog post with id 'locked' not found") /\
  serve_mcp env0 (post None (blog_post_content "locked"))
  = serve_mcp {| readFile := fun _ => inl ENOENT; env_PORT := None |}
              (post None (blog_post_content "locked")).
Proof.
  destruct (C9_storage_failures_absorbed env0) as (_ & _ & _ & Hposts & Hnull & Hpath).
  split; [reflexivity|]. split; [exact (Hposts ENOENT eq_refl)|].
  split; [reflexivity|]. split; [exact (Hnull "locked" EACCES eq_refl)|].
  assert (Hne : "locked" <> "") by discriminate.
  destruct (Hpath (post None (blog_post_content "locked")) "locked" EACCES
              eq_refl eq_refl Hne eq_refl) as [Hreply Hsame].
  split; [exact (Hreply eq_refl)|].
  exact (Hsame {| readFile := fun _ => inl ENOENT; env_PORT := None |} ENOENT eq_refl).
Defined.

Lemma C10_empty_post_is_not_found_witness :
  readFile env0 ["data"; "posts"; "empty.md"] = inr "" /\
  plain_reply (serve_mcp env0 (post None (blog_post_content "empty"))) 404
    (error_payload "Blog post with id 'empty' not found").
Proof.
  split; [reflexivity|].
  exact (proj2 (C10_empty_post_is_not_found env0 (post None (blog_post_content "empty"))
                  "empty" eq_refl eq_refl eq_refl eq_refl)).
Defined.

(** C10 fails as stated: with [Accept: text/event-stream] the status for
    the empty post is 200, not 404. *)
Lemma C10_sse_status_is_200 :
  readFile env0 ["data"; "posts"; "empty.md"] = inr "" /\
  isSse (post stream (blog_post_content "empty")) = true /\
  http_status (serve_mcp env0 (post stream (blog_post_content "empty"))) = 200 /\
  http_status (serve_mcp env0 (post stream (blog_post_content "empty"))) <> 404.
Proof. vm_compute. repeat split. intro; discriminate. Qed.

End Examples.

(** * Further properties of the server *)

(** ** Strings *)

Lemma app_cons (c : ascii) (a b : string) : String c a ++ b = String c (a ++ b).
Proof. reflexivity. Qed.

Lemma prefix_spec (pre s : string) :
  String.prefix pre s = true <-> exists rest, s = pre ++ rest.
Proof.
  revert s. induction pre as [|c pre IH]; intros s.
  - split; [intros _; exists s; reflexivity | intros _; destruct s; reflexivity].
  - destruct s as [|d s]; cbn.
    + split; [discriminate | intros [rest Hrest]; rewrite app_cons in Hrest; discriminate].
    + destruct (Ascii.ascii_dec c d) as [->|Hne].
      * rewrite IH. split; intros [rest Hrest]; exists rest; rewrite app_cons in *; congruence.
      * split; [discriminate | intros [rest Hrest]; rewrite app_cons in Hrest; congruence].
Qed.

Lemma includes_spec (hay needle : string) :
  Js.includes hay needle = true <-> exists before rest, hay = before ++ needle ++ rest.
Proof.
  induction hay as [|c hay IH]; cbn [Js.includes].
  - rewrite orb_false_r, prefix_spec. split.
    + intros [rest Hrest]. exists "", rest. exact Hrest.
    + intros ([|d before] & rest & Heq);
        [exists rest; exact Heq | rewrite app_cons in Heq; discriminate].
  - rewrite orb_true_iff, prefix_spec, IH. split.
    + intros [[rest Hrest] | (before & rest & Hrest)].
      * exists "", rest. exact Hrest.
      * exists (String c before), rest. rewrite app_cons. congruence.
    + intros ([|d before] & rest & Heq).
      * left. exists rest. exact Heq.
      * right. rewrite app_cons in Heq. injection Heq as _ ->.
        exists before, rest. reflexivity.
Qed.

Section Negotiation.
Context `{JsonParser}.
Variable env : Env.

(** X16.  A request negotiates the event stream exactly when it has an Accept
    header and the text [text/event-stream] occurs somewhere in it. *)
Theorem isSse_iff req :
  isSse req = true <->
  exists before rest, accept req = Some (before ++ "text/event-stream" ++ rest).
Proof.
  unfold isSse. rewrite includes_spec. split.
  - intros (before & rest & Heq). exists before, rest.
    destruct (accept req) as [[|c a]|]; cbn [Js.or_else] in Heq.
    + destruct before; [|rewrite app_cons in Heq]; discriminate.
    + rewrite Heq. reflexivity.
    + destruct before; [|rewrite app_cons in Heq]; discriminate.
  - intros (before & rest & ->). exists before, rest.
    destruct before; reflexivity.
Qed.

End Negotiation.

(** ** Every way a dispatch can end *)

Section Outcomes.
Context `{JsonParser}.
Variable env : Env.

(** [outcome b code payload code' payload']: for the request body [b], a
    plain request ends in [res.status(code).json(payload)], and a request
    that negotiated the event stream ends with [res.statusCode = code']
    and the frame of [payload'] written. *)
Inductive outcome (b : Json) : Z -> Json -> Z -> Json -> Prop :=
| Out_missing_context_id :
    truthy (get_prop b "context_id") = false ->
    outcome b 400 (error_payload "context_id is required")
              200 (error_payload "context_id is required")
| Out_success content format :
    truthy (get_prop b "context_id") = true ->
    format = "application/json" \/ (format = "text/markdown" /\ content <> "") ->
    outcome b 200 (responseData (JString content) format)
              200 (responseData (JString content) format)
| Out_missing_parameter :
    get_prop b "context_id" = Some (JString "blog_post_content") ->
    outcome b 400 (error_payload
                     "Missing required parameter 'post_id' for context 'blog_post_content'")
              400 (error_payload "Internal server error")
| Out_post_not_found id :
    get_prop b "context_id" = Some (JString "blog_post_content") ->
    outcome b 404 (error_payload ("Blog post with id '" ++ id ++ "' not found"))
              404 (error_payload "Internal server error")
| Out_unknown_context id :
    truthy (get_prop b "context_id") = true ->
    strict_eq (get_prop b "context_id") "profile" = false ->
    strict_eq (get_prop b "context_id") "blog_posts_list" = false ->
    strict_eq (get_prop b "context_id") "blog_post_content" = false ->
    template (get_prop b "context_id") = Normal id ->
    outcome b 404 (error_payload ("Context with id '" ++ id ++ "' not found"))
              404 (error_payload "Internal server error")
| Out_internal_error :
    truthy (get_prop b "context_id") = true ->
    outcome b 500 (error_payload "Internal server error")
              200 (error_payload "Internal server error").

Lemma serve_mcp_outcome (b : Json) :
  exists code payload code' payload',
    outcome b code payload code' payload' /\
    forall req, body req = b ->
      serve_mcp env req =
      if isSse req then streamed code' payload' else answered code payload.
Proof.
  destruct (truthy (get_prop b "context_id")) eqn:Htruthy.
  2:{ do 4 eexists. split; [apply Out_missing_context_id; exact Htruthy|].
      intros req <-. apply (run_missing_context_id env req Htruthy). }
  destruct (template (get_prop b "context_id")) as [id|e] eqn:Hid.
  2:{ do 4 eexists. split; [apply Out_internal_error; exact Htruthy|].
      intros req <-. apply (run_internal_error env req e Htruthy Hid). }
  destruct (strict_eq (get_prop b "context_id") "profile") eqn:Hp.
  { do 4 eexists. split; [apply Out_success; [exact Htruthy | left; reflexivity]|].
    intros req <-.
    destruct (run_profile env req (strict_eq_true _ _ Hp)) as (v & Hget & Hrun).
    rewrite getUserProfile_value in Hget. injection Hget as <-. exact Hrun. }
  destruct (strict_eq (get_prop b "context_id") "blog_posts_list") eqn:Hl.
  { do 4 eexists. split; [apply Out_success; [exact Htruthy | left; reflexivity]|].
    intros req <-.
    destruct (run_blog_posts_list env req (strict_eq_true _ _ Hl)) as (v & Hget & Hrun).
    rewrite getBlogPosts_value in Hget. injection Hget as <-. exact Hrun. }
  destruct (strict_eq (get_prop b "context_id") "blog_post_content") eqn:Hc.
  2:{ do 4 eexists. split; [apply (Out_unknown_context b id); assumption|].
      intros req <-. apply (run_unknown_context env req id Htruthy Hp Hl Hc Hid). }
  apply strict_eq_true in Hc.
  destruct (truthy (post_id_of (get_prop b "params"))) eqn:Hpid.
  2:{ do 4 eexists. split; [apply Out_missing_parameter; exact Hc|].
      intros req <-. apply (run_missing_post_id env req Hc Hpid). }
  destruct (template (post_id_of (get_prop b "params"))) as [pid|e] eqn:Hpost.
  2:{ do 4 eexists. split; [apply Out_internal_error; exact Htruthy|].
      intros req <-.
      apply (run_post_throws env req e Hc Hpid (getBlogPostContent_throws env _ e Hpost)). }
  pose proof (getBlogPostContent_value env _ pid Hpost) as Hget.
  destruct (readFile env ["data"; "posts"; pid ++ ".md"]) as [e|text].
  { do 4 eexists. split; [apply (Out_post_not_found b pid); exact Hc|].
    intros req <-. apply (run_post_not_found env req pid JNull Hc Hpid Hpost Hget eq_refl). }
  destruct (String.eqb_spec text "") as [->|Hne].
  { do 4 eexists. split; [apply (Out_post_not_found b pid); exact Hc|].
    intros req <-.
    apply (run_post_not_found env req pid (JString "") Hc Hpid Hpost Hget eq_refl). }
  do 4 eexists. split; [apply (Out_success b text "text/markdown"); [exact Htruthy | right; split; [reflexivity | exact Hne]]|].
  intros req <-. apply (run_post_found env req (JString text) Hc Hpid Hget).
  cbn. destruct (String.eqb_spec text ""); [contradiction | reflexivity].
Qed.

(** A body that carries the result of a context,
    [{context: {content, format}}], and one that carries an error,
    [{error}]. *)
Definition success_envelope (payload : Json) : Prop :=
  exists content format,
    payload = JObject [("context", JObject [("content", JString content);
                                            ("format", JString format)])] /\
    (format = "application/json" \/ (format = "text/markdown" /\ content <> "")).

Definition error_envelope (payload : Json) : Prop :=
  exists message, payload = JObject [("error", JString message)].

(** X1.  A plain request that reaches the route of /mcp (its body was
    accepted by [express.json()]) is answered exactly once with one JSON
    document, and its status tells what the document is: 200 with a
    success envelope whose content is a string and whose format is
    application/json or text/markdown, 400 or 404 with an error envelope,
    or 500 with the fixed message "Internal server error". *)
Theorem plain_status_and_shape req :
  isSse req = false ->
  exists payload,
    plain_reply (serve_mcp env req) (http_status (serve_mcp env req)) payload /\
    ((http_status (serve_mcp env req) = 200 /\ success_envelope payload) \/
     ((http_status (serve_mcp env req) = 400 \/ http_status (serve_mcp env req) = 404) /\
      error_envelope payload) \/
     (http_status (serve_mcp env req) = 500 /\
      payload = JObject [("error", JString "Internal server error")])).
Proof.
  intros Hplain.
  destruct (serve_mcp_outcome (body req)) as (code & payload & code' & payload' & Hout & Hrun).
  rewrite (Hrun req eq_refl), Hplain. exists payload.
  split; [apply answered_plain|].
  change (http_status (answered code payload)) with code.
  destruct Hout.
  - right. left. split; [left; reflexivity | eexists; reflexivity].
  - left. split; [reflexivity | do 2 eexists; split; [reflexivity | assumption]].
  - right. left. split; [left; reflexivity | eexists; reflexivity].
  - right. left. split; [right; reflexivity | eexists; reflexivity].
  - right. left. split; [right; reflexivity | eexists; reflexivity].
  - right. right. split; reflexivity.
Qed.

(** X2.  A request that negotiated the event stream and reaches the
    route of /mcp (its body was accepted by [express.json()]) always gets
    status 200 and exactly one data frame, after which the stream is
    closed; the frame carries a success envelope, the error "context_id
    is required", or the error "Internal server error", and nothing
    else. *)
Theorem stream_status_and_shape req :
  isSse req = true ->
  exists payload,
    sse_reply (serve_mcp env req) payload /\
    (success_envelope payload \/
     payload = JObject [("error", JString "context_id is required")] \/
     payload = JObject [("error", JString "Internal server error")]).
Proof.
  intros Hsse.
  destruct (serve_mcp_outcome (body req)) as (code & payload & code' & payload' & Hout & Hrun).
  rewrite (Hrun req eq_refl), Hsse. exists payload'.
  split; [apply streamed_sse|].
  destruct Hout; auto.
  left. do 2 eexists. split; [reflexivity | assumption].
Qed.

(** X3.  The two transports agree wherever the plain request ends with
    status 200 or 500, or has no context_id: the body of the streamed
    response is [data: ] followed by the body of the plain response and
    an empty line. *)
Theorem transports_agree plain stream :
  body plain = body stream ->
  isSse plain = false ->
  isSse stream = true ->
  truthy (get_prop (body plain) "context_id") = false \/
  http_status (serve_mcp env plain) = 200 \/
  http_status (serve_mcp env plain) = 500 ->
  http_body (serve_mcp env stream)
  = "data: " ++ http_body (serve_mcp env plain) ++ Js.LF ++ Js.LF.
Proof.
  intros Hbody Hplain Hstream Hcase.
  destruct (serve_mcp_outcome (body plain))
    as (code & payload & code' & payload' & Hout & Hrun).
  rewrite (Hrun plain eq_refl), Hplain in *.
  rewrite (Hrun stream (eq_sym Hbody)), Hstream.
  change (http_status (answered code payload)) with code in Hcase.
  destruct Hout as [Hfalsy | | Hctx | id Hctx | id Htruthy | ]; try reflexivity.
  - destruct Hcase as [Hcase | [Hcase | Hcase]]; try discriminate.
    rewrite Hctx in Hcase. discriminate.
  - destruct Hcase as [Hcase | [Hcase | Hcase]]; try discriminate.
    rewrite Hctx in Hcase. discriminate.
  - destruct Hcase as [Hcase | [Hcase | Hcase]]; try discriminate. congruence.
Qed.

(** X4.  Where the plain request ends with 404, or with 400 although the
    context_id is there, the request that negotiated the event stream is
    not told so: its status is 200 and its only frame carries "Internal
    server error". *)
Theorem stream_masks_client_errors plain stream :
  body plain = body stream ->
  isSse plain = false ->
  isSse stream = true ->
  http_status (serve_mcp env plain) = 404 \/
  (http_status (serve_mcp env plain) = 400 /\
   truthy (get_prop (body plain) "context_id") = true) ->
  sse_reply (serve_mcp env stream) (error_payload "Internal server error").
Proof.
  intros Hbody Hplain Hstream Hcase.
  destruct (serve_mcp_outcome (body plain))
    as (code & payload & code' & payload' & Hout & Hrun).
  rewrite (Hrun plain eq_refl), Hplain in *.
  rewrite (Hrun stream (eq_sym Hbody)), Hstream.
  change (http_status (answered code payload)) with code in Hcase.
  destruct Hout as [Hfalsy | | | | | ]; try apply streamed_sse.
  - destruct Hcase as [Hcase | [_ Hcase]]; [discriminate | congruence].
  - destruct Hcase as [Hcase | [Hcase _]]; discriminate.
Qed.

End Outcomes.

(** ** The catalog and the switch *)

Section Catalog.
Context `{JsonParser}.
Variable env : Env.

(** The ids the discovery document advertises. *)
Definition context_ids (metadata : Json) : list string :=
  match get_prop metadata "contexts" with
  | Some (JArray items) =>
      omap (fun c => match get_prop c "id" with
                     | Some (JString id) => Some id
                     | _ => None
                     end) items
  | _ => []
  end.

Lemma context_ids_value req :
  context_ids (getMcpMetadata env req) = ["profile"; "blog_posts_list"; "blog_post_content"].
Proof. reflexivity. Qed.

Lemma strict_eq_string s name :
  strict_eq (Some (JString s)) name = false <-> s <> name.
Proof.
  cbn. destruct (String.eqb_spec s name); split; intros; congruence.
Qed.

(** X5.  The discovery document and the switch name the same contexts:
    a plain request with a non-empty string context_id is answered 404
    "Context with id '<id>' not found" exactly when the id is not among
    the ids the discovery document lists. *)
Theorem catalog_matches_dispatch req req' id :
  isSse req = false ->
  get_prop (body req) "context_id" = Some (JString id) ->
  id <> "" ->
  plain_reply (serve_mcp env req) 404
    (error_payload ("Context with id '" ++ id ++ "' not found"))
  <-> ~ In id (context_ids (getMcpMetadata env req')).
Proof.
  intros Hplain Hctx Hne. rewrite context_ids_value.
  assert (Htruthy : truthy (get_prop (body req) "context_id") = true).
  { rewrite Hctx. cbn. destruct (String.eqb_spec id ""); [contradiction | reflexivity]. }
  split.
  - intros (Hstatus & _ & Hchunks & _) Hin.
    destruct (serve_mcp_outcome env (body req))
      as (code & payload & code' & payload' & Hout & Hrun).
    rewrite (Hrun req eq_refl), Hplain in Hstatus, Hchunks.
    change (http_status (answered code payload)) with code in Hstatus.
    change (chunks (answered code payload)) with [JSON_stringify payload] in Hchunks.
    destruct Hout as [Hfalsy | | | pid Hpost | id' _ Hp Hl Hc _ | ]; try discriminate.
    rewrite Hctx in Hp, Hl, Hc.
    apply strict_eq_string in Hp, Hl, Hc.
    cbn in Hin. intuition congruence.
  - intros Hnot. cbn in Hnot.
    rewrite (run_unknown_context env req id Htruthy), Hplain.
    + apply answered_plain.
    + rewrite Hctx. apply strict_eq_string. intuition.
    + rewrite Hctx. apply strict_eq_string. intuition.
    + rewrite Hctx. apply strict_eq_string. intuition.
    + rewrite Hctx. reflexivity.
Qed.

(** X6.  The switch compares with [===]: a context_id that is not a string
    is never dispatched, whatever it prints as.  A plain request whose
    context_id is truthy, is not a string and prints as <id> is answered
    404 "Context with id '<id>' not found", also when <id> is the name of
    a context. *)
Theorem only_strings_are_dispatched req value id :
  isSse req = false ->
  get_prop (body req) "context_id" = Some value ->
  (forall s, value <> JString s) ->
  truthy (Some value) = true ->
  ToString value = Normal id ->
  plain_reply (serve_mcp env req) 404
    (error_payload ("Context with id '" ++ id ++ "' not found")).
Proof.
  intros Hplain Hctx Hnot Htruthy Hid.
  assert (Hneq : forall name, strict_eq (Some value) name = false).
  { intros name. destruct value; try reflexivity. exfalso. eapply Hnot. reflexivity. }
  rewrite (run_unknown_context env req id), Hplain.
  - apply answered_plain.
  - rewrite Hctx. exact Htruthy.
  - rewrite Hctx. apply Hneq.
  - rewrite Hctx. apply Hneq.
  - rewrite Hctx. apply Hneq.
  - rewrite Hctx. exact Hid.
Qed.

(** X7.  An id that cannot be printed ends in the catch block.  When the
    context_id, or the post_id of a "blog_post_content" request, is an
    object with a property named toString, the request is answered 500
    "Internal server error" (on the event stream: the frame of that
    error), and the helper's own catch does not absorb the failure. *)
Theorem unprintable_id_is_internal_error req fields :
  has_own "toString" fields = true ->
  get_prop (body req) "context_id" = Some (JObject fields) \/
  (get_prop (body req) "context_id" = Some (JString "blog_post_content") /\
   post_id_of (get_prop (body req) "params") = Some (JObject fields)) ->
  if isSse req
  then sse_reply (serve_mcp env req) (error_payload "Internal server error")
  else plain_reply (serve_mcp env req) 500 (error_payload "Internal server error").
Proof.
  intros Hown [Hctx | [Hctx Hpid]].
  - rewrite (run_internal_error env req (TypeError "Cannot convert object to primitive value")).
    + destruct (isSse req); [apply streamed_sse | apply answered_plain].
    + rewrite Hctx. reflexivity.
    + rewrite Hctx. cbn. rewrite Hown. reflexivity.
  - rewrite (run_post_throws env req (TypeError "Cannot convert object to primitive value") Hctx).
    + destruct (isSse req); [apply streamed_sse | apply answered_plain].
    + rewrite Hpid. reflexivity.
    + apply getBlogPostContent_throws. rewrite Hpid. cbn. rewrite Hown. reflexivity.
Qed.

(** X8.  A store whose JSON documents can be read but not parsed fails
    open as well: "profile" and "blog_posts_list" are still answered 200,
    with the JSON text of the built-in default as content. *)
Theorem corrupt_store_fails_open req :
  (get_prop (body req) "context_id" = Some (JString "profile") ->
   forall data,
     readFile env ["data"; "profile.json"] = inr data ->
     JSON_parse data = None ->
     delivered req (serve_mcp env req)
       (responseData (JString (JSON_stringify default_profile)) "application/json")) /\
  (get_prop (body req) "context_id" = Some (JString "blog_posts_list") ->
   forall data,
     readFile env ["data"; "posts"; "index.json"] = inr data ->
     JSON_parse data = None ->
     delivered req (serve_mcp env req)
       (responseData (JString (JSON_stringify default_posts)) "application/json")).
Proof.
  unfold delivered. split; intros Hctx data Hread Hparse.
  - destruct (run_profile env req Hctx) as (v & Hget & ->).
    rewrite getUserProfile_value, Hread, Hparse in Hget. injection Hget as <-.
    cbv zeta. destruct (isSse req); [apply streamed_sse | apply answered_plain].
  - destruct (run_blog_posts_list env req Hctx) as (v & Hget & ->).
    rewrite getBlogPosts_value, Hread, Hparse in Hget. injection Hget as <-.
    cbv zeta. destruct (isSse req); [apply streamed_sse | apply answered_plain].
Qed.

End Catalog.

(** ** Middleware, negotiation and the discovery document *)

Section Routes.
Context `{JsonParser}.
Variable env : Env.

(** The three fields the CORS middleware declares. *)
Definition cors_open (r : Response) : Prop :=
  http_header r "Access-Control-Allow-Origin" = Some "*" /\
  http_header r "Access-Control-Allow-Headers"
  = Some "Origin, X-Requested-With, Content-Type, Accept" /\
  http_header r "Access-Control-Allow-Methods" = Some "GET, POST, OPTIONS".

Lemma streamed_cors code payload : cors_open (streamed code payload).
Proof. repeat split. Qed.

Lemma answered_cors code payload : cors_open (answered code payload).
Proof. repeat split. Qed.

(** X9.  Every response that the CORS middleware or a route behind it
    produces declares open cross-origin access: the dispatch and
    discovery responses under both transports, the error answers of the
    handlers included, the liveness text and the pre-flight answer.  (A
    body that [express.json()] rejects never gets this far.) *)
Theorem cors_on_every_route req :
  cors_open (serve_mcp env req) /\
  cors_open (serve_metadata env req) /\
  cors_open serve_root /\
  cors_open serve_preflight.
Proof.
  split; [|split; [|split; repeat split]].
  - destruct (negotiated_envelope env req) as (c & c' & p & p' & ->).
    destruct (isSse req); [apply streamed_cors | apply answered_cors].
  - rewrite run_metadata.
    destruct (isSse req); [apply streamed_cors | apply answered_cors].
Qed.

(** X10.  For a request that reaches the route of /mcp, the transport
    fields depend on the negotiation alone, not on how the dispatch
    ends: an event stream response is text/event-stream with
    Cache-Control no-cache, Connection keep-alive and X-Accel-Buffering
    "no"; a plain response is application/json in utf-8 and has neither
    the Cache-Control nor the X-Accel-Buffering field. *)
Theorem transport_headers req :
  let r := serve_mcp env req in
  http_header r "Content-Type"
  = Some (if isSse req then "text/event-stream" else "application/json; charset=utf-8") /\
  http_header r "Cache-Control" = (if isSse req then Some "no-cache" else None) /\
  http_header r "X-Accel-Buffering" = (if isSse req then Some "no" else None) /\
  (isSse req = true -> http_header r "Connection" = Some "keep-alive").
Proof.
  cbv zeta. destruct (negotiated_envelope env req) as (c & c' & p & p' & ->).
  destruct (isSse req); repeat split. discriminate.
Qed.

(** The fields of a response with the three CORS fields added. *)
Definition with_cors (fields : gmap string string) : gmap string string :=
  <["Access-Control-Allow-Methods" := "GET, POST, OPTIONS"]>
    (<["Access-Control-Allow-Headers" := "Origin, X-Requested-With, Content-Type, Accept"]>
       (<["Access-Control-Allow-Origin" := "*"]> fields)).

(** X11.  The pre-flight short-circuit, on any response whose head is
    still pending, whatever fields it already has: for an OPTIONS request
    the middleware adds the three CORS fields and answers by itself with
    status 200 and no body, and no route handler runs, so the [options]
    handler of /mcp is never the one that answers; every other method
    reaches its route with the three CORS fields added, the other fields
    as they were, and nothing sent. *)
Theorem preflight_short_circuit (next : Eff unit) (r : Response) :
  wire r = None ->
  corsMiddleware "OPTIONS" next r
  = (Normal tt,
     {| statusCode := 200; headers := with_cors (headers r);
        wire := Some (200, with_cors (headers r));
        chunks := chunks r; writableEnded := true |}) /\
  corsMiddleware "OPTIONS" options_mcp r = corsMiddleware "OPTIONS" next r /\
  (forall method, method <> "OPTIONS" ->
     corsMiddleware method next r
     = next {| statusCode := statusCode r; headers := with_cors (headers r);
               wire := None; chunks := chunks r; writableEnded := writableEnded r |}).
Proof.
  intros Hwire.
  assert (Hrun : forall k : Eff unit,
             corsMiddleware "OPTIONS" k r
             = (Normal tt,
                {| statusCode := 200; headers := with_cors (headers r);
                   wire := Some (200, with_cors (headers r));
                   chunks := chunks r; writableEnded := true |})).
  { intros k. unfold corsMiddleware, bind, res_setHeader, headersSent.
    cbn. rewrite Hwire. cbn. unfold res_end, send_head. cbn. reflexivity. }
  split; [apply Hrun|]. split; [rewrite !Hrun; reflexivity|].
  intros method Hne. unfold corsMiddleware, bind, res_setHeader, headersSent.
  cbn. rewrite Hwire. cbn.
  destruct (String.eqb_spec method "OPTIONS"); [contradiction | reflexivity].
Qed.

(** X12.  [setupSSE] on a response whose head is pending never throws and
    never writes a body: for a plain request it leaves the response as it
    is; for an event stream request it sends the head, with the status
    the response holds and text/event-stream as content type.  On a
    response whose head is out it throws for an event stream request. *)
Theorem setupSSE_sends_the_head req r :
  (wire r = None ->
   exists r',
     setupSSE req r = (Normal (isSse req), r') /\
     chunks r' = chunks r /\ writableEnded r' = writableEnded r /\
     (isSse req = false -> r' = r) /\
     (isSse req = true ->
      headersSent r' = true /\ http_status r' = statusCode r /\
      http_header r' "Content-Type" = Some "text/event-stream")) /\
  (wire r <> None -> isSse req = true ->
   setupSSE req r = (Throw ERR_HTTP_HEADERS_SENT, r)).
Proof.
  split.
  - intros Hwire. unfold setupSSE. destruct (isSse req).
    + eexists. split.
      * unfold bind, res_setHeader, res_flushHeaders, send_head, headersSent, ret.
        cbn. rewrite Hwire. cbn. reflexivity.
      * cbn. repeat split; try discriminate.
        rewrite lookup_insert_ne by discriminate.
        rewrite lookup_insert_ne by discriminate.
        rewrite lookup_insert_ne by discriminate.
        apply lookup_insert_eq.
    + exists r. repeat split; try discriminate.
  - intros Hwire Hsse. unfold setupSSE. rewrite Hsse.
    unfold bind, res_setHeader, headersSent.
    destruct (wire r); [reflexivity | contradiction].
Qed.

(** X13.  Without a Host header (or with an empty one) the discovery
    document falls back to localhost and the port of the process, 3000
    when PORT is not set; over http its root_url is then the address the
    server announces when it starts listening. *)
Theorem host_falls_back_to_localhost req :
  host req = None \/ host req = Some "" ->
  effective_host env req = "localhost:" ++ port env /\
  (env_PORT env = None \/ env_PORT env = Some "" -> port env = "3000") /\
  (protocol req = "http" ->
   rootUrl env req = "http://localhost:" ++ port env /\
   listening env = "Server listening at " ++ rootUrl env req) /\
  (protocol req <> "http" -> rootUrl env req = "https://localhost:" ++ port env).
Proof.
  intros Hhost.
  assert (Heff : effective_host env req = "localhost:" ++ port env).
  { unfold effective_host. destruct Hhost as [-> | ->]; reflexivity. }
  split; [exact Heff|]. split.
  - unfold port. intros [-> | ->]; reflexivity.
  - unfold rootUrl, scheme, listening. rewrite Heff. split.
    + intros ->. split; reflexivity.
    + intros Hne. destruct (String.eqb_spec (protocol req) "http"); [contradiction|].
      reflexivity.
Qed.

(** X14.  A discovery request that negotiated the event stream, or a
    plain one without conditional headers (If-None-Match,
    If-Modified-Since), is answered 200 through the negotiated transport
    with the discovery document; the document depends on the Host header
    and the protocol only, so both transports carry the same one; its
    context list is the same for every request, and icon_url is root_url
    followed by /icon.png. *)
Theorem metadata_is_always_delivered req :
  delivered req (serve_metadata env req) (getMcpMetadata env req) /\
  (forall req', host req' = host req -> protocol req' = protocol req ->
                getMcpMetadata env req' = getMcpMetadata env req) /\
  get_prop (getMcpMetadata env req) "contexts" = Some contexts /\
  (exists root,
      get_prop (getMcpMetadata env req) "root_url" = Some (JString root) /\
      get_prop (getMcpMetadata env req) "icon_url" = Some (JString (root ++ "/icon.png"))).
Proof.
  split; [|split; [|split]].
  - unfold delivered. rewrite run_metadata.
    destruct (isSse req); [apply streamed_sse | apply answered_plain].
  - intros req' Hhost Hprotocol.
    unfold getMcpMetadata, rootUrl, scheme, effective_host.
    rewrite Hhost, Hprotocol. reflexivity.
  - reflexivity.
  - eexists. split; reflexivity.
Qed.

End Routes.

(** ** The frame on the event stream *)

Section Frames.
Context `{JsonParser}.
Variable env : Env.

(** The characters that end a line of an event stream. *)
Definition line_end (c : ascii) : bool :=
  let n := N_of_ascii c in ((n =? 10) || (n =? 13))%N.

Fixpoint one_line (s : string) : bool :=
  match s with
  | EmptyString => true
  | String c rest => negb (line_end c) && one_line rest
  end.

Fixpoint number_free (v : Json) : bool :=
  match v with
  | JNumber _ => false
  | JArray items => forallb number_free items
  | JObject fields => forallb (fun kv => number_free (snd kv)) fields
  | _ => true
  end.

Section JsonInduction.
Variable P : Json -> Prop.
Hypothesis P_null : P JNull.
Hypothesis P_bool : forall b, P (JBool b).
Hypothesis P_number : forall n, P (JNumber n).
Hypothesis P_string : forall s, P (JString s).
Hypothesis P_array : forall items, Forall P items -> P (JArray items).
Hypothesis P_object : forall fields, Forall (fun kv => P (snd kv)) fields -> P (JObject fields).

Fixpoint Json_nested_ind (v : Json) : P v :=
  match v with
  | JNull => P_null
  | JBool b => P_bool b
  | JNumber n => P_number n
  | JString s => P_string s
  | JArray items =>
      P_array items
        ((fix all (l : list Json) : Forall P l :=
            match l with
            | [] => List.Forall_nil P
            | x :: rest => List.Forall_cons P x rest (Json_nested_ind x) (all rest)
            end) items)
  | JObject fields =>
      P_object fields
        ((fix all (l : list (string * Json)) : Forall (fun kv => P (snd kv)) l :=
            match l with
            | [] => List.Forall_nil _
            | kv :: rest => List.Forall_cons _ kv rest (Json_nested_ind (snd kv)) (all rest)
            end) fields)
  end.
End JsonInduction.

Lemma one_line_app a b : one_line (a ++ b) = one_line a && one_line b.
Proof.
  induction a as [|c a IH]; [reflexivity|].
  rewrite app_cons. cbn [one_line]. rewrite IH, andb_assoc. reflexivity.
Qed.

Lemma escape_char_one_line c : one_line (escape_char c) = true.
Proof. destruct c as [[] [] [] [] [] [] [] []]; reflexivity. Qed.

Lemma quote_one_line s : one_line (quote s) = true.
Proof.
  unfold quote. rewrite !one_line_app.
  assert (Hescape : one_line (escape s) = true).
  { induction s as [|c s IH]; [reflexivity|].
    cbn [escape]. rewrite one_line_app, escape_char_one_line, IH. reflexivity. }
  rewrite Hescape. reflexivity.
Qed.

Lemma join_one_line sep parts :
  one_line sep = true ->
  Forall (fun p => one_line p = true) parts ->
  one_line (Js.join sep parts) = true.
Proof.
  intros Hsep Hparts. induction Hparts as [|p rest Hp Hrest IH]; [reflexivity|].
  destruct rest as [|q rest]; [exact Hp|].
  change (Js.join sep (p :: q :: rest)) with (p ++ sep ++ Js.join sep (q :: rest)).
  rewrite !one_line_app, Hp, Hsep, IH. reflexivity.
Qed.

(** The JSON text of a value without numbers has no line end in it: the
    ones inside strings are escaped. *)
Lemma stringify_one_line v :
  number_free v = true -> one_line (JSON_stringify v) = true.
Proof.
  induction v as [| [] | n | s | items IH | fields IH] using Json_nested_ind;
    intros Hfree; try reflexivity; try discriminate.
  - apply quote_one_line.
  - cbn [JSON_stringify]. rewrite !one_line_app.
    rewrite join_one_line; [reflexivity | reflexivity |].
    cbn [number_free] in Hfree. rewrite forallb_forall in Hfree.
    apply Forall_map. rewrite Forall_forall in IH |- *.
    intros x Hx. apply IH; [assumption|]. apply Hfree. apply list_elem_of_In. exact Hx.
  - cbn [JSON_stringify]. rewrite !one_line_app.
    rewrite join_one_line; [reflexivity | reflexivity |].
    cbn [number_free] in Hfree. rewrite forallb_forall in Hfree.
    apply Forall_map. rewrite Forall_forall in IH |- *.
    intros kv Hkv. cbn. rewrite !one_line_app, quote_one_line.
    rewrite IH; [reflexivity | assumption |]. apply Hfree. apply list_elem_of_In. exact Hkv.
Qed.

(** X15.  What is written on the event stream is one event of one data
    line: the body is [data: ], a text without any line end, and the
    empty line that ends the event.  This holds for every dispatch and
    every discovery request that negotiated the stream, whatever strings
    the post, the profile or the ids contain. *)
Theorem stream_body_is_one_event req :
  isSse req = true ->
  (exists text,
      http_body (serve_mcp env req) = "data: " ++ text ++ Js.LF ++ Js.LF /\
      one_line text = true) /\
  (exists text,
      http_body (serve_metadata env req) = "data: " ++ text ++ Js.LF ++ Js.LF /\
      one_line text = true).
Proof.
  intros Hsse. split.
  - destruct (serve_mcp_outcome env (body req))
      as (code & payload & code' & payload' & Hout & Hrun).
    rewrite (Hrun req eq_refl), Hsse. exists (JSON_stringify payload').
    split; [reflexivity|]. apply stringify_one_line.
    destruct Hout; reflexivity.
  - rewrite run_metadata, Hsse. exists (JSON_stringify (getMcpMetadata env req)).
    split; [reflexivity|]. apply stringify_one_line. reflexivity.
Qed.

End Frames.

(** ** The further properties on the sample runtime *)

Section MoreExamples.
Import Sample.
#[local] Existing Instance ZNumber.
#[local] Existing Instance parser.

Lemma plain_status_and_shape_witness :
  isSse (post None unknown) = false /\
  exists payload,
    plain_reply (serve_mcp env0 (post None unknown))
      (http_status (serve_mcp env0 (post None unknown))) payload /\
    ((http_status (serve_mcp env0 (post None unknown)) = 200 /\ success_envelope payload) \/
     ((http_status (serve_mcp env0 (post None unknown)) = 400 \/
       http_status (serve_mcp env0 (post None unknown)) = 404) /\
      error_envelope payload) \/
     (http_status (serve_mcp env0 (post None unknown)) = 500 /\
      payload = JObject [("error", JString "Internal server error")])).
Proof.
  split; [reflexivity|].
  exact (plain_status_and_shape env0 (post None unknown) eq_refl).
Defined.

Lemma stream_status_and_shape_witness :
  isSse (post stream profile) = true /\
  exists payload,
    sse_reply (serve_mcp env0 (post stream profile)) payload /\
    (success_envelope payload \/
     payload = JObject [("error", JString "context_id is required")] \/
     payload = JObject [("error", JString "Internal server error")]).
Proof.
  split; [reflexivity|].
  exact (stream_status_and_shape env0 (post stream profile) eq_refl).
Defined.

Lemma transports_agree_witness :
  http_status (serve_mcp env0 (post None (blog_post_content "post-1"))) = 200 /\
  http_body (serve_mcp env0 (post stream (blog_post_content "post-1")))
  = "data: " ++ http_body (serve_mcp env0 (post None (blog_post_content "post-1")))
    ++ Js.LF ++ Js.LF.
Proof.
  split; [reflexivity|].
  exact (transports_agree env0 (post None (blog_post_content "post-1"))
           (post stream (blog_post_content "post-1")) eq_refl eq_refl eq_refl
           (or_intror (or_introl eq_refl))).
Defined.

Lemma stream_masks_client_errors_witness :
  http_status (serve_mcp env0 (post None (blog_post_content "missing-id"))) = 404 /\
  sse_reply (serve_mcp env0 (post stream (blog_post_content "missing-id"))) InternalError.
Proof.
  split; [reflexivity|].
  exact (stream_masks_client_errors env0 (post None (blog_post_content "missing-id"))
           (post stream (blog_post_content "missing-id")) eq_refl eq_refl eq_refl
           (or_introl eq_refl)).
Defined.

Lemma catalog_matches_dispatch_witness :
  ~ In "nope" (context_ids (getMcpMetadata env0 (describe "example.com" "https"))) /\
  plain_reply (serve_mcp env0 (post None unknown)) 404
    (error_payload "Context with id 'nope' not found").
Proof.
  assert (Hne : "nope" <> "") by discriminate.
  assert (Hnot : ~ In "nope" (context_ids (getMcpMetadata env0 (describe "example.com" "https")))).
  { cbn. intros [Heq | [Heq | [Heq | []]]]; discriminate. }
  split; [exact Hnot|].
  exact (proj2 (catalog_matches_dispatch env0 (post None unknown)
                  (describe "example.com" "https") "nope" eq_refl eq_refl Hne) Hnot).
Defined.

Lemma only_strings_are_dispatched_witness :
  ToString (JArray [JString "profile"]) = Normal "profile" /\
  plain_reply (serve_mcp env0 (post None array_id)) 404
    (error_payload "Context with id 'profile' not found").
Proof.
  split; [reflexivity|].
  refine (only_strings_are_dispatched env0 (post None array_id) (JArray [JString "profile"])
            "profile" eq_refl eq_refl _ eq_refl eq_refl).
  intros s. discriminate.
Defined.

Lemma unprintable_id_is_internal_error_witness :
  has_own "toString" [("toString", JNull)] = true /\
  plain_reply (serve_mcp env0 (post None object_id)) 500 InternalError /\
  sse_reply (serve_mcp env0 (post stream object_id)) InternalError.
Proof.
  split; [reflexivity|]. split.
  - exact (unprintable_id_is_internal_error env0 (post None object_id)
             [("toString", JNull)] eq_refl (or_introl eq_refl)).
  - exact (unprintable_id_is_internal_error env0 (post stream object_id)
             [("toString", JNull)] eq_refl (or_introl eq_refl)).
Defined.

Lemma corrupt_store_fails_open_witness :
  JSON_parse "not json" = None /\
  delivered (post None profile) (serve_mcp corrupt (post None profile))
    (responseData (JString (JSON_stringify default_profile)) "application/json") /\
  delivered (post stream blog_posts_list) (serve_mcp corrupt (post stream blog_posts_list))
    (responseData (JString (JSON_stringify default_posts)) "application/json").
Proof.
  split; [reflexivity|]. split.
  - exact (proj1 (corrupt_store_fails_open corrupt (post None profile))
             eq_refl "not json" eq_refl eq_refl).
  - exact (proj2 (corrupt_store_fails_open corrupt (post stream blog_posts_list))
             eq_refl "not json" eq_refl eq_refl).
Defined.

Lemma preflight_short_circuit_witness :
  wire fresh_response = None /\
  exec (corsMiddleware "OPTIONS" options_mcp) fresh_response = serve_preflight /\
  corsMiddleware "POST" (post_mcp env0 (post None profile)) fresh_response
  = post_mcp env0 (post None profile) after_cors.
Proof.
  assert (Hne : "POST" <> "OPTIONS") by discriminate.
  destruct (preflight_short_circuit (post_mcp env0 (post None profile)) fresh_response eq_refl)
    as (_ & Hsame & Hnext).
  split; [reflexivity|]. split.
  - unfold exec. rewrite Hsame. reflexivity.
  - exact (Hnext "POST" Hne).
Defined.

Lemma setupSSE_sends_the_head_witness :
  wire after_cors = None /\
  (exists r',
      setupSSE (post stream profile) after_cors = (Normal true, r') /\
      chunks r' = [] /\ writableEnded r' = false /\
      headersSent r' = true /\ http_status r' = 200 /\
      http_header r' "Content-Type" = Some "text/event-stream") /\
  setupSSE (post stream profile) (streaming 200)
  = (Throw ERR_HTTP_HEADERS_SENT, streaming 200).
Proof.
  split; [reflexivity|]. split.
  - destruct (proj1 (setupSSE_sends_the_head (post stream profile) after_cors) eq_refl)
      as (r' & Hrun & Hchunks & Hended & _ & Hhead).
    exists r'. destruct (Hhead eq_refl) as (Hsent & Hstatus & Htype).
    repeat split; assumption.
  - refine (proj2 (setupSSE_sends_the_head (post stream profile) (streaming 200)) _ eq_refl).
    discriminate.
Defined.

Lemma host_falls_back_to_localhost_witness :
  host no_host = None /\
  rootUrl env0 no_host = "http://localhost:3000" /\
  listening env0 = "Server listening at http://localhost:3000".
Proof.
  split; [reflexivity|].
  destruct (host_falls_back_to_localhost env0 no_host (or_introl eq_refl))
    as (_ & _ & Hhttp & _).
  exact (Hhttp eq_refl).
Defined.

Lemma metadata_is_always_delivered_witness :
  getMcpMetadata env0 {| accept := stream; host := Some "example.com"; protocol := "https";
                         body := JNull |}
  = getMcpMetadata env0 (describe "example.com" "https").
Proof.
  exact (proj1 (proj2 (metadata_is_always_delivered env0 (describe "example.com" "https")))
           {| accept := stream; host := Some "example.com"; protocol := "https";
              body := JNull |} eq_refl eq_refl).
Defined.

Lemma stream_body_is_one_event_witness :
  isSse (post stream (blog_post_content "post-1")) = true /\
  exists text,
    http_body (serve_mcp env0 (post stream (blog_post_content "post-1")))
    = "data: " ++ text ++ Js.LF ++ Js.LF /\
    one_line text = true.
Proof.
  split; [reflexivity|].
  exact (proj1 (stream_body_is_one_event env0 (post stream (blog_post_content "post-1"))
                  eq_refl)).
Defined.

Lemma transport_headers_witness :
  isSse (post stream unknown) = true /\
  http_header (serve_mcp env0 (post stream unknown)) "Connection" = Some "keep-alive".
Proof.
  split; [reflexivity|].
  destruct (transport_headers env0 (post stream unknown)) as (_ & _ & _ & Hconnection).
  exact (Hconnection eq_refl).
Defined.

Lemma isSse_iff_witness :
  isSse (post (Some "application/json, text/event-stream") profile) = true.
Proof.
  exact (proj2 (isSse_iff (post (Some "application/json, text/event-stream") profile))
           (ex_intro _ "application/json, " (ex_intro _ "" eq_refl))).
Defined.

End MoreExamples.
